(** * _worker.js: the VLESS-over-WebSocket handshake and relay handlers

    A shallow embedding of [handleVLESSProtocol], [firstMessageHandler],
    [proxyTCP] / [messageHandler] and [handleUDP] of [src/_worker.js],
    together with the helpers they call ([arrayBufferToHexString],
    [formatUUID], the address formatting, [TextDecoder] / [TextEncoder]).

    Conventions of the embedding:
    - a [Uint8Array] is a [list byte]; [buffer[i]] is [nth_error], whose
      [None] is JavaScript's [undefined];
    - ASCII-only strings (identifiers, hexadecimal text, close reasons) are
      [string]; text produced by [TextDecoder] is a list of Unicode scalar
      values ([text]);
    - the handlers run in a small monad that threads the closure variables
      of [handleVLESSProtocol], logs every call made on the WebSocket and on
      [fetch], and carries JavaScript exceptions;
    - [console.log] / [console.error] have no effect on the channel and are
      left out; the [close] and [error] listeners only log. *)

From Stdlib Require Import List Arith NArith ZArith Bool String Ascii Lia.
From Stdlib.Strings Require Import Byte.
From Stdlib Require Import DecimalString HexadecimalString.
Import ListNotations.

Local Open Scope N_scope.
Local Open Scope string_scope.
Local Open Scope list_scope.

(** ** Bytes and JavaScript values *)

Definition bytes := list byte.

(** [u8 n] is the byte stored when [n] is written into a [Uint8Array]. *)
Definition u8 (n : N) : byte :=
  match Byte.of_N (n mod 256) with
  | Some b => b
  | None => x00
  end.

Definition bytes_of (l : list N) : bytes := map u8 l.

(** [buffer[i]]: a number, or [undefined] past the end. *)
Definition index (buffer : bytes) (i : nat) : option N :=
  option_map Byte.to_N (nth_error buffer i).

(** [TypedArray.prototype.slice(start, end)] for [0 <= start], [0 <= end]:
    both bounds are clamped to the length. *)
Definition slice (buffer : bytes) (start stop : nat) : bytes :=
  firstn (stop - start) (skipn start buffer).

(** [ToInt32] of a byte or of [undefined], as used by [<<] and [|]. *)
Definition toInt32 (v : option N) : N :=
  match v with
  | Some n => n
  | None => 0
  end.

(** [String(v)] of a number or [undefined], as used by a template literal. *)
Definition decimal (n : N) : string :=
  DecimalString.NilZero.string_of_uint (N.to_uint n).

Definition toString (v : option N) : string :=
  match v with
  | Some n => decimal n
  | None => "undefined"
  end.

(** [n.toString(16)] *)
Definition toString16 (n : N) : string :=
  HexadecimalString.NilZero.string_of_uint (N.to_hex_uint n).

Fixpoint repeat_char (c : ascii) (n : nat) : string :=
  match n with
  | O => EmptyString
  | S n' => String c (repeat_char c n')
  end.

(** [s.padStart(width, '0')] *)
Definition padStart0 (width : nat) (s : string) : string :=
  repeat_char "0"%char (width - String.length s) ++ s.

(** [b => b.toString(16).padStart(2, '0')] *)
Definition hex2 (b : byte) : string :=
  padStart0 2 (toString16 (Byte.to_N b)).

(** [s.substr(start, len)] *)
Definition substr (start len : nat) (s : string) : string :=
  String.substring start len s.

(** [String.prototype.toLowerCase] on ASCII text. *)
Definition lower_char (c : ascii) : ascii :=
  let n := N_of_ascii c in
  if ((65 <=? n)%N && (n <=? 90)%N)%bool then ascii_of_N (n + 32) else c.

Fixpoint toLowerCase (s : string) : string :=
  match s with
  | EmptyString => EmptyString
  | String c s' => String (lower_char c) (toLowerCase s')
  end.

(** ** Helper functions of the worker *)

(** [arrayBufferToHexString]: lines 25-29. *)
Definition arrayBufferToHexString (buffer : bytes) : string :=
  String.concat "" (map hex2 buffer).

(** [formatUUID]: lines 333-335. *)
Definition formatUUID (hex : string) : string :=
  substr 0 8 hex ++ "-" ++ substr 8 4 hex ++ "-" ++ substr 12 4 hex ++ "-"
  ++ substr 16 4 hex ++ "-" ++ substr 20 12 hex.

(** ** The configured users: lines 7-14 *)

Record User := {
  uuid : string;
  email : string;
  level : N;
  alterId : N
}.

Definition VLESS_USERS : list User :=
  [ {| uuid := "62a9adef-40b2-477a-861f-ce1e8604bc34";
       email := "user@example.com";
       level := 0;
       alterId := 0 |} ].

(** [users.find(u => u.uuid.toLowerCase() === id.toLowerCase())] *)
Definition find_user (users : list User) (id : string) : option User :=
  find (fun u => String.eqb (toLowerCase (uuid u)) (toLowerCase id)) users.

(** ** Text: [TextDecoder], [TextEncoder] and the string methods used *)

(** A JavaScript string produced by [TextDecoder] (and every string built
    from it here) is well-formed UTF-16; it is kept as its sequence of
    Unicode scalar values.  The patterns searched for are ASCII, so
    [includes], [startsWith] and [split] agree with their UTF-16 versions. *)
Definition text := list N.

(** A string literal of the source as text. *)
Definition lit (s : string) : text :=
  map N_of_ascii (list_ascii_of_string s).

Definition CRLF : string := String "013"%char (String "010"%char EmptyString).

(** The first byte of a UTF-8 sequence (WHATWG decoder, "bytes needed is 0"). *)
Inductive utf8_lead_result :=
| LeadEmit (cp : N)
| LeadNeed (cp : N) (remaining : nat) (lower upper : N)
| LeadError.

Definition utf8_lead (b : N) : utf8_lead_result :=
  if (b <=? 0x7F)%N then LeadEmit b
  else if ((0xC2 <=? b)%N && (b <=? 0xDF)%N)%bool then
    LeadNeed (N.land b 0x1F) 1 0x80 0xBF
  else if ((0xE0 <=? b)%N && (b <=? 0xEF)%N)%bool then
    LeadNeed (N.land b 0xF) 2
             (if (b =? 0xE0)%N then 0xA0 else 0x80)
             (if (b =? 0xED)%N then 0x9F else 0xBF)
  else if ((0xF0 <=? b)%N && (b <=? 0xF4)%N)%bool then
    LeadNeed (N.land b 0x7) 3
             (if (b =? 0xF0)%N then 0x90 else 0x80)
             (if (b =? 0xF4)%N then 0x8F else 0xBF)
  else LeadError.

(** The WHATWG UTF-8 decoder with replacement (non-fatal): [st] is the
    sequence in progress, [None] between sequences.  A byte that breaks a
    sequence yields U+FFFD and is then read again as a first byte. *)
Fixpoint utf8_decode (st : option (N * nat * N * N)) (input : bytes) : text :=
  match input with
  | [] =>
      match st with
      | None => []
      | Some _ => [0xFFFD]
      end
  | b :: rest =>
      let n := Byte.to_N b in
      let restart :=
        match utf8_lead n with
        | LeadEmit cp => cp :: utf8_decode None rest
        | LeadNeed cp k lo hi => utf8_decode (Some (cp, k, lo, hi)) rest
        | LeadError => 0xFFFD :: utf8_decode None rest
        end in
      match st with
      | None => restart
      | Some (cp, remaining, lo, hi) =>
          if ((lo <=? n)%N && (n <=? hi)%N)%bool then
            let cp' := N.lor (N.shiftl cp 6) (N.land n 0x3F) in
            match remaining with
            | S (S k) => utf8_decode (Some (cp', S k, 0x80, 0xBF)) rest
            | _ => cp' :: utf8_decode None rest
            end
          else 0xFFFD :: restart
      end
  end.

(** [new TextDecoder().decode(bytes)]: UTF-8, non-fatal, a leading byte
    order mark is dropped. *)
Definition TextDecoder_decode (input : bytes) : text :=
  match utf8_decode None input with
  | 0xFEFF :: t => t
  | t => t
  end.

Definition utf8_encode_cp (cp : N) : bytes :=
  if (cp <=? 0x7F)%N then [u8 cp]
  else if (cp <=? 0x7FF)%N then
    [u8 (N.lor 0xC0 (N.shiftr cp 6)); u8 (N.lor 0x80 (N.land cp 0x3F))]
  else if (cp <=? 0xFFFF)%N then
    [u8 (N.lor 0xE0 (N.shiftr cp 12));
     u8 (N.lor 0x80 (N.land (N.shiftr cp 6) 0x3F));
     u8 (N.lor 0x80 (N.land cp 0x3F))]
  else
    [u8 (N.lor 0xF0 (N.shiftr cp 18));
     u8 (N.lor 0x80 (N.land (N.shiftr cp 12) 0x3F));
     u8 (N.lor 0x80 (N.land (N.shiftr cp 6) 0x3F));
     u8 (N.lor 0x80 (N.land cp 0x3F))].

(** [new TextEncoder().encode(t)] *)
Definition TextEncoder_encode (t : text) : bytes :=
  flat_map utf8_encode_cp t.

(** [t.startsWith(pat)] *)
Fixpoint startsWith (pat t : text) : bool :=
  match pat, t with
  | [], _ => true
  | p :: pat', c :: t' => ((p =? c)%N && startsWith pat' t')%bool
  | _ :: _, [] => false
  end.

(** [t.includes(pat)] *)
Fixpoint includes (pat t : text) : bool :=
  (startsWith pat t ||
   match t with
   | [] => false
   | _ :: t' => includes pat t'
   end)%bool.

(** [t.split(sep)] for a non-empty separator: [skip] counts the characters
    of a separator just matched that are still to be passed over, [acc] is
    the piece being read, reversed. *)
Fixpoint split_from (sep : text) (skip : nat) (acc t : text) : list text :=
  match t with
  | [] => [rev acc]
  | c :: t' =>
      match skip with
      | S k => split_from sep k acc t'
      | O =>
          if startsWith sep t
          then rev acc :: split_from sep (List.length sep - 1) [] t'
          else split_from sep 0 (c :: acc) t'
      end
  end.

Definition split (sep t : text) : list text := split_from sep 0 [] t.

(** ** The IPv6 text of lines 186-192 *)

(** How many of the first [max] characters of [s] are ['0'] in a row. *)
Fixpoint zeros (max : nat) (s : string) : nat :=
  match max, s with
  | S m, String c s' => if Ascii.eqb c "0" then S (zeros m s') else O
  | _, _ => O
  end.

Fixpoint drop (n : nat) (s : string) : string :=
  match n, s with
  | S m, String _ s' => drop m s'
  | _, _ => s
  end.

(** [.replace(/(?:^|:)0{1,4}/g, ':')]: [at_start] says that [s] begins at
    index 0, [skip] counts characters of the current match still to be
    consumed. *)
Fixpoint replace_zero_groups (at_start : bool) (skip : nat) (s : string) : string :=
  match s with
  | EmptyString => EmptyString
  | String c s' =>
      match skip with
      | S k => replace_zero_groups false k s'
      | O =>
          if (at_start && Nat.ltb 0 (zeros 4 s))%bool then
            String ":" (replace_zero_groups false (zeros 4 s - 1) s')
          else if (Ascii.eqb c ":" && Nat.ltb 0 (zeros 4 s'))%bool then
            String ":" (replace_zero_groups false (zeros 4 s') s')
          else String c (replace_zero_groups false 0 s')
      end
  end.

(** [.replace(/^0{1,4}/, '')] *)
Definition strip_leading_zeros (s : string) : string := drop (zeros 4 s) s.

(** [.replace(/:{2,}/g, '::')]: [in_run] says that the two colons of the
    current run have been written already. *)
Fixpoint collapse_colons (in_run : bool) (s : string) : string :=
  match s with
  | EmptyString => EmptyString
  | String c s' =>
      if Ascii.eqb c ":" then
        if in_run then collapse_colons true s'
        else
          match s' with
          | String c2 _ =>
              if Ascii.eqb c2 ":"
              then String ":" (String ":" (collapse_colons true s'))
              else String ":" (collapse_colons false s')
          | EmptyString => String ":" EmptyString
          end
      else String c (collapse_colons false s')
  end.

Definition ipv6_text (ipv6Bytes : bytes) : string :=
  collapse_colons false
    (strip_leading_zeros
       (replace_zero_groups true 0 (String.concat ":" (map hex2 ipv6Bytes)))).

(** ** The session: what [handleVLESSProtocol] owns *)

(** [event.data] of a WebSocket message: binary or text. *)
Inductive data :=
| ArrayBuffer (buffer : bytes)
| TextData (t : text).

(** The second argument of [fetch]: lines 277-291.  [headers] is the object
    filled by [requestInit.headers[key] = value], kept in order of first
    assignment (JavaScript enumerates integer-like names first; the order
    plays no part here). *)
Record RequestInit := {
  method : text;
  headers : list (text * text);
  body : option text
}.

(** The calls a handler makes on its collaborators.  [Fetch id] stands for
    [fetch(url, requestInit)]; [id] names the pending request so that its
    completion can be delivered later. *)
Inductive call :=
| Send (payload : bytes)
| Close (code : N) (reason : string)
| Fetch (id : nat) (url : text) (init : RequestInit).

(** The listener registered for ['message'] events. *)
Inductive listener :=
| FirstMessage                          (* firstMessageHandler, once *)
| RelayTCP (host : text) (port : N)     (* messageHandler of proxyTCP *)
| NoListener.

(** The variables of [handleVLESSProtocol] (lines 130-133), the message
    listener of the WebSocket and the [fetch] calls still awaited. *)
Record session := {
  userId : option string;
  targetHost : option text;
  targetPort : option N;
  isUDP : bool;
  onmessage : listener;
  pending : list nat;
  next_id : nat
}.

(** The state when [handleVLESSProtocol] returns: lines 130-133 and 230. *)
Definition handleVLESSProtocol : session :=
  {| userId := None; targetHost := None; targetPort := None; isUDP := false;
     onmessage := FirstMessage; pending := []; next_id := 0 |}.

(** ** The handler monad *)

Inductive completion (A : Type) :=
| Normal (a : A)
| Throw.
Arguments Normal {A} a.
Arguments Throw {A}.

Definition js (A : Type) : Type := session -> session * list call * completion A.

Definition ret {A} (a : A) : js A := fun s => (s, [], Normal a).

Definition bind {A B} (m : js A) (f : A -> js B) : js B :=
  fun s =>
    match m s with
    | (s1, c1, Normal a) =>
        match f a s1 with
        | (s2, c2, r) => (s2, c1 ++ c2, r)
        end
    | (s1, c1, Throw) => (s1, c1, Throw)
    end.

(** [try { m } catch (e) { handler }] *)
Definition try_catch {A} (m handler : js A) : js A :=
  fun s =>
    match m s with
    | (s1, c1, Throw) =>
        match handler s1 with
        | (s2, c2, r) => (s2, c1 ++ c2, r)
        end
    | r => r
    end.

Notation "m ;; k" := (bind m (fun _ => k))
  (at level 61, right associativity).

Definition modify (f : session -> session) : js unit :=
  fun s => (f s, [], Normal tt).

Definition with_userId (v : string) (s : session) : session :=
  {| userId := Some v; targetHost := targetHost s; targetPort := targetPort s;
     isUDP := isUDP s; onmessage := onmessage s; pending := pending s;
     next_id := next_id s |}.

Definition with_target (host : text) (port : N) (s : session) : session :=
  {| userId := userId s; targetHost := Some host; targetPort := Some port;
     isUDP := isUDP s; onmessage := onmessage s; pending := pending s;
     next_id := next_id s |}.

Definition with_isUDP (v : bool) (s : session) : session :=
  {| userId := userId s; targetHost := targetHost s; targetPort := targetPort s;
     isUDP := v; onmessage := onmessage s; pending := pending s;
     next_id := next_id s |}.

Definition with_onmessage (l : listener) (s : session) : session :=
  {| userId := userId s; targetHost := targetHost s; targetPort := targetPort s;
     isUDP := isUDP s; onmessage := l; pending := pending s;
     next_id := next_id s |}.

Definition with_pending (p : list nat) (n : nat) (s : session) : session :=
  {| userId := userId s; targetHost := targetHost s; targetPort := targetPort s;
     isUDP := isUDP s; onmessage := onmessage s; pending := p;
     next_id := n |}.

Definition set_userId (v : string) : js unit := modify (with_userId v).

Definition set_target (host : text) (port : N) : js unit :=
  modify (with_target host port).

Definition set_isUDP (v : bool) : js unit := modify (with_isUDP v).

(** [websocket.addEventListener('message', l)] on a WebSocket whose only
    other message listener, if any, was registered once and has fired;
    [NoListener] when that listener is removed. *)
Definition set_onmessage (l : listener) : js unit := modify (with_onmessage l).

Definition set_pending (p : list nat) (n : nat) : js unit :=
  modify (with_pending p n).

(** [websocket.close(code, reason)] *)
Definition ws_close (code : N) (reason : string) : js unit :=
  fun s => (s, [Close code reason], Normal tt).

(** [await fetch(url, requestInit)] up to the suspension: the call is made
    and recorded as pending; the rest of the handler runs when the promise
    settles ([fetch_fulfilled], [fetch_rejected]). *)
Definition fetch (url : text) (init : RequestInit) : js unit :=
  fun s =>
    let id := next_id s in
    (with_pending (pending s ++ [id]) (S id) s, [Fetch id url init], Normal tt).

(** The message of line 324, encoded. *)
Definition udp_notice (host : text) (port : N) : bytes :=
  TextEncoder_encode
    (lit "UDP to " ++ host ++ lit ":" ++ lit (decimal port)
     ++ lit " received (simulated)").

(** [command === 2]: line 204. *)
Definition is_udp_command (command : option N) : bool :=
  match command with
  | Some 2 => true
  | _ => false
  end.

(** The response of line 209. *)
Definition success_response : bytes := bytes_of [0; 0].

(** The address switch of lines 170-198: the host text and [addressLength]
    ([None] is [NaN]), or [None] for the [default] branch. *)
Definition parse_address (buffer : bytes) : option (text * option N) :=
  match index buffer 20 with
  | Some 1 =>
      Some (lit (toString (index buffer 21) ++ "." ++ toString (index buffer 22)
                 ++ "." ++ toString (index buffer 23) ++ "."
                 ++ toString (index buffer 24)),
            Some 4)
  | Some 2 =>
      let domainLength := index buffer 21 in
      let domainBytes :=
        slice buffer 22 (match domainLength with
                         | Some l => 22 + N.to_nat l
                         | None => 0            (* 22 + undefined is NaN *)
                         end) in
      Some (TextDecoder_decode domainBytes,
            option_map (fun l => 1 + l) domainLength)
  | Some 3 =>
      let ipv6Bytes := slice buffer 21 37 in
      Some (lit (ipv6_text ipv6Bytes), Some 16)
  | _ => None
  end.

Definition bad_gateway : bytes :=
  TextEncoder_encode (lit ("HTTP/1.1 502 Bad Gateway" ++ CRLF ++ CRLF)).

Definition connection_established : bytes :=
  TextEncoder_encode (lit ("HTTP/1.1 200 Connection Established" ++ CRLF ++ CRLF)).

Fixpoint set_property (key value : text) (h : list (text * text)) : list (text * text) :=
  match h with
  | [] => [(key, value)]
  | (k, v) :: h' =>
      if list_eq_dec N.eq_dec k key then (k, value) :: h'
      else (k, v) :: set_property key value h'
  end.

(** [headers[key] = value] on a plain object, [value] a string: a new
    name is added, a known one overwritten; assigning a string to
    [__proto__] changes nothing. *)
Definition assign (key value : text) (h : list (text * text)) : list (text * text) :=
  if list_eq_dec N.eq_dec key (lit "__proto__") then h
  else set_property key value h.

(** The header loop of lines 284-291 over [lines[1..]]. *)
Fixpoint parse_headers (lines : list text) (h : list (text * text)) : list (text * text) :=
  match lines with
  | [] => h
  | [] :: _ => h
  | line :: rest =>
      match split (lit ": ") line with
      | key :: value :: _ =>
          match key, value with
          | _ :: _, _ :: _ => parse_headers rest (assign key value h)
          | _, _ => parse_headers rest h
          end
      | _ => parse_headers rest h
      end
  end.

(** [requestInit]: lines 277-291. *)
Definition requestInit (t : text) : RequestInit :=
  {| method := hd [] (split (lit " ") t);
     headers := parse_headers (tl (split (lit (CRLF)) t)) [];
     body := if includes (lit (CRLF ++ CRLF)) t
             then nth_error (split (lit (CRLF ++ CRLF)) t) 1
             else None |}.

(** The test of line 254. *)
Definition looks_like_web (host : text) (port : N) : bool :=
  ((port =? 80)%N || (port =? 443)%N || includes (lit ".com") host
   || includes (lit ".org") host || includes (lit ".net") host)%bool.

(** The test of line 258. *)
Definition is_http_request (t : text) : bool :=
  (startsWith (lit "GET ") t || startsWith (lit "POST ") t
   || startsWith (lit "CONNECT ") t)%bool.

(** The URL of line 260. *)
Definition target_url (host : text) (port : N) : text :=
  lit "http" ++ (if (port =? 443)%N then lit "s" else []) ++ lit "://"
  ++ host ++ lit ":" ++ lit (decimal port).

(** [proxyTCP]: lines 242-320; all it does when called is register
    [messageHandler]. *)
Definition proxyTCP (host : text) (port : N) : js unit :=
  set_onmessage (RelayTCP host port).

Section Handlers.

(** Whether [websocket.send(payload)] raises during this handler run (the
    runtime refuses to send on a socket it no longer considers open, or a
    payload it will not carry).  Nothing else in the handlers can raise. *)
Variable send_throws : bytes -> bool.

(** [websocket.send(payload)] *)
Definition ws_send (payload : bytes) : js unit :=
  fun s => (s, [Send payload], if send_throws payload then Throw else Normal tt).

(** [handleUDP]: lines 322-326. *)
Definition handleUDP (host : text) (port : N) : js unit :=
  ws_send (udp_notice host port).

(** The [try] block of [firstMessageHandler]: lines 138-223. *)
Definition first_message_try (d : data) : js unit :=
  match d with
  | ArrayBuffer buffer =>
      let uuidBytes := slice buffer 0 16 in
      let uuidHex := arrayBufferToHexString uuidBytes in
      let uuid := formatUUID uuidHex in
      match find_user VLESS_USERS uuid with
      | None => ws_close 1008 "Invalid user"
      | Some user =>
          set_userId uuid ;;
          let options := index buffer 16 in
          let command := index buffer 17 in
          let port := N.lor (N.shiftl (toInt32 (index buffer 18)) 8)
                            (toInt32 (index buffer 19)) in
          match parse_address buffer with
          | None => ws_close 1008 "Invalid address type"
          | Some (address, addressLength) =>
              set_target address port ;;
              let udp := is_udp_command command in
              set_isUDP udp ;;
              ws_send success_response ;;
              if negb udp
              then proxyTCP address port
              else handleUDP address port
          end
      end
  | TextData _ => ws_close 1008 "Invalid data format"
  end.

(** [firstMessageHandler]: lines 136-228. *)
Definition firstMessageHandler (d : data) : js unit :=
  try_catch (first_message_try d) (ws_close 1011 "Protocol error").

(** [messageHandler] of [proxyTCP], up to the first [await]: lines 245-317. *)
Definition messageHandler (host : text) (port : N) (d : data) : js unit :=
  match d with
  | ArrayBuffer payload =>
      try_catch
        (if looks_like_web host port then
           let t := TextDecoder_decode payload in
           if is_http_request t then
             let url := target_url host port in
             try_catch
               (if startsWith (lit "CONNECT ") t then
                  ws_send connection_established ;;
                  ws_close 1000 "CONNECT not fully supported"
                else
                  fetch url (requestInit t))
               (ws_send bad_gateway)
           else ws_send payload
         else ws_send payload)
        (ret tt)
  | TextData _ => ret tt
  end.

(** The rest of [messageHandler] once [fetch] and [response.arrayBuffer()]
    have both fulfilled: lines 297-315. *)
Definition fetch_fulfilled (responseBody : bytes) : js unit :=
  try_catch
    (try_catch (ws_send responseBody) (ws_send bad_gateway))
    (ret tt).

(** The rest of [messageHandler] once [fetch] or [response.arrayBuffer()]
    has rejected: lines 299-315. *)
Definition fetch_rejected : js unit :=
  try_catch (ws_send bad_gateway) (ret tt).

End Handlers.

(** ** The event loop *)

(** What the runtime delivers to the session: a ['message'] event, or the
    settlement of a pending [fetch]. *)
Inductive input :=
| Message (d : data)
| FetchFulfilled (id : nat) (responseBody : bytes)
| FetchRejected (id : nat).

Definition remove_id (id : nat) (l : list nat) : list nat :=
  filter (fun x => negb (Nat.eqb x id)) l.

Definition is_pending (id : nat) (s : session) : bool :=
  existsb (Nat.eqb id) (pending s).

(** One turn of the event loop.  A listener registered with [once] is
    removed before it is called; a listener added while an event is being
    dispatched is not called for that event. *)
Definition step (send_throws : bytes -> bool) (s : session) (i : input)
  : session * list call * completion unit :=
  match i with
  | Message d =>
      match onmessage s with
      | FirstMessage =>
          (set_onmessage NoListener ;; firstMessageHandler send_throws d) s
      | RelayTCP host port => messageHandler send_throws host port d s
      | NoListener => ret tt s
      end
  | FetchFulfilled id responseBody =>
      if is_pending id s
      then (set_pending (remove_id id (pending s)) (next_id s) ;;
            fetch_fulfilled send_throws responseBody) s
      else ret tt s
  | FetchRejected id =>
      if is_pending id s
      then (set_pending (remove_id id (pending s)) (next_id s) ;;
            fetch_rejected send_throws) s
      else ret tt s
  end.

(** A run: each input comes with the behaviour of [websocket.send] during
    the turn that handles it. *)
Definition turn := ((bytes -> bool) * input)%type.

Fixpoint run (s : session) (turns : list turn) : session * list call :=
  match turns with
  | [] => (s, [])
  | (send_throws, i) :: rest =>
      match step send_throws s i with
      | (s1, c1, _) =>
          match run s1 rest with
          | (s2, c2) => (s2, c1 ++ c2)
          end
      end
  end.

(** A runtime on which [websocket.send] never raises. *)
Definition sends_ok : bytes -> bool := fun _ => false.

(** ** Auxiliary definitions for the statements *)

(** The identifier of the configured user, as it appears on the wire. *)
Definition user_bytes : bytes :=
  bytes_of [0x62; 0xa9; 0xad; 0xef; 0x40; 0xb2; 0x47; 0x7a;
            0x86; 0x1f; 0xce; 0x1e; 0x86; 0x04; 0xbc; 0x34].

(** The identifier text the handler derives from a first message. *)
Definition uuid_of (buffer : bytes) : string :=
  formatUUID (arrayBufferToHexString (slice buffer 0 16)).

(** The port the handler derives from a first message: line 165. *)
Definition port_of (buffer : bytes) : N :=
  N.lor (N.shiftl (toInt32 (index buffer 18)) 8) (toInt32 (index buffer 19)).

(** Bit [k] of byte number [i] inverted. *)
Definition flip_bit (b : byte) (k : N) : byte :=
  u8 (N.lxor (Byte.to_N b) (2 ^ k)).

Fixpoint flip_at (l : bytes) (i : nat) (k : N) : bytes :=
  match l, i with
  | [], _ => []
  | b :: l', O => flip_bit b k :: l'
  | b :: l', S i' => b :: flip_at l' i' k
  end.

(** The two hexadecimal digits of a byte and the way back. *)
Definition hex_digit (n : N) : ascii :=
  if (n <? 10)%N then ascii_of_N (48 + n) else ascii_of_N (87 + n).

Definition hi_digit (b : byte) : ascii := hex_digit (Byte.to_N b / 16).
Definition lo_digit (b : byte) : ascii := hex_digit (Byte.to_N b mod 16).

Definition digit_value (c : ascii) : N :=
  let n := N_of_ascii c in
  if (n <? 58)%N then n - 48 else n - 87.

Definition byte_of_digits (h l : ascii) : byte :=
  u8 (16 * digit_value h + digit_value l).

Definition bytes_eq_dec : forall a b : bytes, {a = b} + {a <> b} :=
  list_eq_dec Byte.byte_eq_dec.

(** Whether a turn is handled by [firstMessageHandler]. *)
Definition parses_handshake (s : session) (i : input) : bool :=
  match i, onmessage s with
  | Message _, FirstMessage => true
  | _, _ => false
  end.

(** How many turns of a run are handled by [firstMessageHandler]. *)
Fixpoint handshakes (s : session) (turns : list turn) : nat :=
  match turns with
  | [] => O
  | (send_throws, i) :: rest =>
      (if parses_handshake s i then 1 else 0)%nat
      + handshakes (fst (fst (step send_throws s i))) rest
  end.

Definition is_fetch (c : call) : bool :=
  match c with
  | Fetch _ _ _ => true
  | _ => false
  end.

(** A list of received chunks as turns of the event loop. *)
Definition messages (chunks : list ((bytes -> bool) * bytes)) : list turn :=
  map (fun c => (fst c, Message (ArrayBuffer (snd c)))) chunks.

Definition is_close (c : call) : bool :=
  match c with
  | Close _ _ => true
  | _ => false
  end.

(** ** Sample messages *)

(** A first message: identifier, options byte 0, command, port, the address
    field (type tag first) and whatever follows it. *)
Definition first_message (id : bytes) (command port : N)
  (address payload : list N) : bytes :=
  id ++ bytes_of ([0; command; port / 256; port mod 256] ++ address ++ payload).

(** TCP to 10.0.0.1:80. *)
Definition msg_tcp_web : bytes := first_message user_bytes 1 80 [1; 10; 0; 0; 1] [].

(** TCP to 10.0.0.1:1234. *)
Definition msg_tcp_plain : bytes := first_message user_bytes 1 1234 [1; 10; 0; 0; 1] [].

(** TCP to 10.0.0.1:1234, followed in the same message by "hello". *)
Definition msg_tcp_payload : bytes :=
  first_message user_bytes 1 1234 [1; 10; 0; 0; 1] [104; 101; 108; 108; 111].

(** UDP to 8.8.8.8:53. *)
Definition msg_udp : bytes := first_message user_bytes 2 53 [1; 8; 8; 8; 8] [].

(** Command byte 3, to 10.0.0.1:1234. *)
Definition msg_command3 : bytes := first_message user_bytes 3 1234 [1; 10; 0; 0; 1] [].

(** TCP to the IPv6 address 2001:db8::1, port 443. *)
Definition msg_tcp_ipv6 : bytes :=
  first_message user_bytes 1 443
    [3; 0x20; 0x01; 0x0d; 0xb8; 0; 0; 0; 0; 0; 0; 0; 0; 0; 0; 0; 1] [].

(** [msg_tcp_web] with the lowest bit of the first identifier byte inverted. *)
Definition msg_unknown_user : bytes := flip_at msg_tcp_web 0 0.

(** Seventeen bytes: the identifier and the options byte. *)
Definition msg_short : bytes := user_bytes ++ bytes_of [0].

Definition http_get : bytes :=
  TextEncoder_encode (lit ("GET / HTTP/1.1" ++ CRLF ++ CRLF)).

(** Three bytes that are not the start of an HTTP request. *)
Definition raw_chunk : bytes := bytes_of [1; 2; 3].

(** One UDP datagram "A" behind its 2-byte big-endian length. *)
Definition framed_datagram : bytes := bytes_of [0; 1; 65].

(** The session after the handshake [msg_tcp_plain]. *)
Definition relay_plain : session :=
  fst (run handleVLESSProtocol [(sends_ok, Message (ArrayBuffer msg_tcp_plain))]).

(** The session after the handshake [msg_tcp_web] and the request
    [http_get], whose [fetch] is pending. *)
Definition relay_web_pending : session :=
  fst (run handleVLESSProtocol
         [(sends_ok, Message (ArrayBuffer msg_tcp_web));
          (sends_ok, Message (ArrayBuffer http_get))]).

(** A runtime on which every [websocket.send] raises. *)
Definition sends_fail : bytes -> bool := fun _ => true.

(** ** The unused helper [hexStringToArrayBuffer] and [validateUUID] *)

(** A JavaScript string as its UTF-16 code units. *)
Definition jsstring := list N.

(** [lo <= c <= hi] *)
Definition between (lo hi c : N) : bool := (N.leb lo c && N.leb c hi)%bool.

(** [StrWhiteSpaceChar]: the code units [parseInt] skips at the start. *)
Definition is_whitespace (c : N) : bool :=
  (between 9 13 c || N.eqb c 0x20 || N.eqb c 0xA0 || N.eqb c 0x1680
   || between 0x2000 0x200A c || N.eqb c 0x2028 || N.eqb c 0x2029
   || N.eqb c 0x202F || N.eqb c 0x205F || N.eqb c 0x3000 || N.eqb c 0xFEFF)%bool.

Fixpoint trim_start (s : jsstring) : jsstring :=
  match s with
  | c :: s' => if is_whitespace c then trim_start s' else s
  | [] => []
  end.

(** The value of a hexadecimal digit, upper or lower case. *)
Definition hex_value (c : N) : option N :=
  if between 48 57 c then Some (c - 48)
  else if between 97 102 c then Some (c - 87)
  else if between 65 70 c then Some (c - 55)
  else None.

(** The longest prefix of hexadecimal digits, as a number; [acc] is the
    value read so far, [None] when no digit has been read. *)
Fixpoint hex_prefix (acc : option N) (s : jsstring) : option N :=
  match s with
  | c :: s' =>
      match hex_value c with
      | Some v =>
          hex_prefix (Some (16 * match acc with Some a => a | None => 0 end + v)) s'
      | None => acc
      end
  | [] => acc
  end.

(** [parseInt(s, 16)]: [None] is [NaN].  Leading white space is skipped,
    one sign is read, a [0x] or [0X] prefix is dropped, and the digits up
    to the first other character are the value. *)
Definition parseInt16 (s : jsstring) : option Z :=
  let s1 := trim_start s in
  let negative := match s1 with
                  | 45 :: _ => true
                  | _ => false
                  end in
  let s2 := match s1 with
            | 45 :: r => r
            | 43 :: r => r
            | _ => s1
            end in
  let s3 := match s2 with
            | 48 :: 120 :: r => r
            | 48 :: 88 :: r => r
            | _ => s2
            end in
  match hex_prefix None s3 with
  | None => None
  | Some n => Some (if negative then (- Z.of_N n)%Z else Z.of_N n)
  end.

(** Storing a number into a [Uint8Array]: [NaN] is stored as 0, any other
    value modulo 256. *)
Definition toUint8 (v : option Z) : byte :=
  match v with
  | None => x00
  | Some z => u8 (Z.to_N (z mod 256))
  end.

(** [hexStringToArrayBuffer]: lines 17-23.  The array has
    [hexString.length / 2] elements, truncated, so the write for a last
    single character falls outside it and is dropped. *)
Fixpoint hexStringToArrayBuffer (hexString : jsstring) : bytes :=
  match hexString with
  | a :: b :: rest => toUint8 (parseInt16 [a; b]) :: hexStringToArrayBuffer rest
  | _ => []
  end.

(** A character of the class [[0-9a-f]] under the [i] flag. *)
Definition is_hex_digit (c : N) : bool :=
  match hex_value c with
  | Some _ => true
  | None => false
  end.

(** [[0-9a-f]{n}] at the start of [s]: what is left of [s]. *)
Fixpoint hex_run (n : nat) (s : jsstring) : option jsstring :=
  match n with
  | O => Some s
  | S n' =>
      match s with
      | c :: s' => if is_hex_digit c then hex_run n' s' else None
      | [] => None
      end
  end.

(** [-] at the start of [s]. *)
Definition hyphen (s : jsstring) : option jsstring :=
  match s with
  | 45 :: s' => Some s'
  | _ => None
  end.

Definition and_then {A B} (o : option A) (f : A -> option B) : option B :=
  match o with
  | Some a => f a
  | None => None
  end.

(** [validateUUID]: lines 4 and 329-331, [UUID_REGEX.test(uuid)]. *)
Definition validateUUID (uuid : jsstring) : bool :=
  match and_then (and_then (and_then (and_then (and_then (and_then (and_then
          (and_then (hex_run 8 uuid) hyphen) (hex_run 4)) hyphen) (hex_run 4))
          hyphen) (hex_run 4)) hyphen) (hex_run 12) with
  | Some [] => true
  | _ => false
  end.

(** A lower-case hexadecimal digit, and a predicate on every character. *)
Definition is_lower_hex (c : ascii) : bool :=
  let n := N_of_ascii c in (between 48 57 n || between 97 102 n)%bool.

Fixpoint string_forall (p : ascii -> bool) (s : string) : bool :=
  match s with
  | EmptyString => true
  | String c s' => (p c && string_forall p s')%bool
  end.

(** A code unit with [A-F] lowered. *)
Definition lower_hex_unit (c : N) : N := if between 65 70 c then c + 32 else c.

(** ** Observations of a session *)

(** The variables of [handleVLESSProtocol] and the message listener. *)
Definition session_variables (s : session)
  : option string * option text * option N * bool * listener :=
  (userId s, targetHost s, targetPort s, isUDP s, onmessage s).

(** The close codes and reasons that appear in the source. *)
Definition close_known (c : call) : bool :=
  match c with
  | Close code reason =>
      existsb (fun k => (N.eqb code (fst k) && String.eqb reason (snd k))%bool)
        [(1008, "Invalid user"); (1008, "Invalid address type");
         (1008, "Invalid data format"); (1011, "Protocol error");
         (1000, "CONNECT not fully supported")]
  | _ => true
  end.

(** What an echo of the binary messages of a run sends. *)
Fixpoint echo_of (turns : list turn) : list call :=
  match turns with
  | [] => []
  | (_, Message (ArrayBuffer payload)) :: rest => Send payload :: echo_of rest
  | _ :: rest => echo_of rest
  end.

(** What [parse_headers] keeps true of the object it fills. *)
Definition headers_ok (h : list (text * text)) : Prop :=
  NoDup (map fst h) /\
  Forall (fun kv => fst kv <> [] /\ snd kv <> [] /\ fst kv <> lit "__proto__") h.

(** ** The HTTP side: [JSON.stringify], [btoa] and the configuration texts *)

(** The values given to [JSON.stringify] in this file: [null], integers,
    strings and objects of these, with their members in insertion order. *)
#[warnings="-register-all"] Inductive json :=
| JNull
| JNumber (n : N)
| JString (s : jsstring)
| JObject (members : list (string * json)).

(** [\uXXXX] with four lower-case hexadecimal digits. *)
Definition unicode_escape (c : N) : jsstring :=
  [92; 117] ++ map (fun k => N_of_ascii (hex_digit ((c / 16 ^ k) mod 16)))
                   [3; 2; 1; 0].

(** The characters of [QuoteJSONString] between the quotes: the short
    escapes, [\uXXXX] for other control characters and for surrogates
    that are not part of a pair, every other character as it is. *)
Fixpoint quote_units (s : jsstring) : jsstring :=
  match s with
  | [] => []
  | c :: s' =>
      if N.eqb c 8 then [92; 98] ++ quote_units s'
      else if N.eqb c 9 then [92; 116] ++ quote_units s'
      else if N.eqb c 10 then [92; 110] ++ quote_units s'
      else if N.eqb c 12 then [92; 102] ++ quote_units s'
      else if N.eqb c 13 then [92; 114] ++ quote_units s'
      else if N.eqb c 34 then [92; 34] ++ quote_units s'
      else if N.eqb c 92 then [92; 92] ++ quote_units s'
      else if N.ltb c 32 then unicode_escape c ++ quote_units s'
      else if between 0xD800 0xDBFF c then
        match s' with
        | d :: s'' =>
            if between 0xDC00 0xDFFF d then c :: d :: quote_units s''
            else unicode_escape c ++ quote_units s'
        | [] => unicode_escape c
        end
      else if between 0xDC00 0xDFFF c then unicode_escape c ++ quote_units s'
      else c :: quote_units s'
  end.

(** [QuoteJSONString] *)
Definition quote (s : jsstring) : jsstring := [34] ++ quote_units s ++ [34].

(** [Array.prototype.join] on strings. *)
Fixpoint join (sep : jsstring) (l : list jsstring) : jsstring :=
  match l with
  | [] => []
  | [x] => x
  | x :: l' => x ++ sep ++ join sep l'
  end.

(** [SerializeJSONProperty]: [gap] is the indentation unit ([[]] without
    a third argument), [indent] the current indentation. *)
Fixpoint serialize (gap indent : jsstring) (v : json) : jsstring :=
  match v with
  | JNull => lit "null"
  | JNumber n => lit (decimal n)
  | JString s => quote s
  | JObject members =>
      let stepback := indent in
      let indent := indent ++ gap in
      let partial :=
        map (fun kv : string * json =>
               let (k, x) := kv in
               quote (lit k) ++ lit ":"
               ++ (match gap with [] => [] | _ => lit " " end)
               ++ serialize gap indent x) members in
      match partial with
      | [] => lit "{}"
      | _ =>
          match gap with
          | [] => lit "{" ++ join (lit ",") partial ++ lit "}"
          | _ => lit "{" ++ [10] ++ indent
                 ++ join (lit "," ++ [10] ++ indent) partial
                 ++ [10] ++ stepback ++ lit "}"
          end
      end
  end.

(** [JSON.stringify(value)] and [JSON.stringify(value, null, 2)]. *)
Definition JSON_stringify (v : json) : jsstring := serialize [] [] v.
Definition JSON_stringify_2 (v : json) : jsstring := serialize (lit "  ") [] v.

(** The base64 alphabet. *)
Definition base64_char (n : N) : N :=
  if N.ltb n 26 then 65 + n
  else if N.ltb n 52 then 97 + (n - 26)
  else if N.ltb n 62 then 48 + (n - 52)
  else if N.eqb n 62 then 43
  else 47.

Fixpoint base64 (l : list N) : jsstring :=
  match l with
  | a :: b :: c :: rest =>
      [base64_char (a / 4);
       base64_char ((a mod 4) * 16 + b / 16);
       base64_char ((b mod 16) * 4 + c / 64);
       base64_char (c mod 64)] ++ base64 rest
  | [a; b] =>
      [base64_char (a / 4);
       base64_char ((a mod 4) * 16 + b / 16);
       base64_char ((b mod 16) * 4);
       61]
  | [a] =>
      [base64_char (a / 4); base64_char ((a mod 4) * 16); 61; 61]
  | [] => []
  end.

(** Whether every character is below 256. *)
Definition is_latin1 (s : jsstring) : bool := forallb (fun c => N.leb c 255) s.

(** [btoa(s)]: raises on a character above 255. *)
Definition btoa (s : jsstring) : completion jsstring :=
  if is_latin1 s then Normal (base64 s) else Throw.

(** [`${v}`] for a string or [null]. *)
Definition template (v : option jsstring) : jsstring :=
  match v with
  | Some s => s
  | None => lit "null"
  end.

(** A string or [null] as a JSON value. *)
Definition string_or_null (v : option jsstring) : json :=
  match v with
  | Some s => JString s
  | None => JNull
  end.

(** [generateVmessConfig]: lines 337-354. *)
Definition generateVmessConfig (uuid : jsstring) (host : option jsstring) : json :=
  JObject
    [("v", JString (lit "2"));
     ("ps", JString (lit "CF Worker VPN - " ++ template host));
     ("add", string_or_null host);
     ("port", JNumber 443);
     ("id", JString uuid);
     ("aid", JNumber 0);
     ("net", JString (lit "ws"));
     ("type", JString (lit "none"));
     ("host", string_or_null host);
     ("path", JString (lit "/vless"));
     ("tls", JString (lit "tls"));
     ("sni", string_or_null host);
     ("alpn", JString []);
     ("fp", JString (lit "chrome"))].

(** [generateVlessConfig]: lines 356-358. *)
Definition generateVlessConfig (uuid : jsstring) (host : option jsstring) : jsstring :=
  lit "vless://" ++ uuid ++ lit "@" ++ template host
  ++ lit ":443?encryption=none&security=tls&type=ws&host=" ++ template host
  ++ lit "&path=%2Fvless#CF+Worker+VPN".

(** ** The HTTP side: the request handlers *)

(** What the handlers read of a request: the path of its URL, two headers
    and two query parameters ([None] is [null]). *)
Record Request := {
  pathname : jsstring;
  header_Upgrade : option jsstring;
  header_host : option jsstring;
  param_uuid : option jsstring;
  param_id : option jsstring
}.

(** [new Response(body, {status, headers, webSocket})]; the status is 200
    when none is given. *)
Record Response := {
  response_body : option jsstring;
  status : N;
  response_headers : list (string * string);
  webSocket : bool
}.

(** [a === b] on strings. *)
Definition strict_eq (a b : jsstring) : bool :=
  if list_eq_dec N.eq_dec a b then true else false.

(** Truthiness of a string or [null]. *)
Definition truthy (v : option jsstring) : bool :=
  match v with
  | Some (_ :: _) => true
  | _ => false
  end.

(** [a || b] *)
Definition or_else (a b : option jsstring) : option jsstring :=
  if truthy a then a else b.

(** The object of lines 94-106. *)
Definition fallback_config (uuid : jsstring) (host : option jsstring) : json :=
  JObject
    [("v", JString (lit "2"));
     ("ps", JString (lit "Cloudflare Worker VPN"));
     ("add", string_or_null host);
     ("port", JNumber 443);
     ("id", JString uuid);
     ("aid", JNumber 0);
     ("net", JString (lit "ws"));
     ("type", JString (lit "none"));
     ("host", string_or_null host);
     ("path", JString (lit "/vless"));
     ("tls", JString (lit "tls"))].

Definition upgrade_required : Response :=
  {| response_body := Some (lit "WebSocket upgrade required");
     status := 426;
     response_headers := [];
     webSocket := false |}.

Definition json_response (body : jsstring) : Response :=
  {| response_body := Some body;
     status := 200;
     response_headers := [("Content-Type", "application/json")];
     webSocket := false |}.

(** [handleVLESS]: lines 85-127.  With the response comes the session
    started on the server end of the socket pair, if one is. *)
Definition handleVLESS (request : Request) : Response * option session :=
  let upgradeHeader := header_Upgrade request in
  if negb (truthy upgradeHeader)
     || negb (strict_eq (template upgradeHeader) (lit "websocket"))
  then
    let uuid := or_else (param_uuid request) (param_id request) in
    if truthy uuid && validateUUID (template uuid) then
      (json_response
         (JSON_stringify (fallback_config (template uuid) (header_host request))),
       None)
    else (upgrade_required, None)
  else
    ({| response_body := None;
        status := 101;
        response_headers := [];
        webSocket := true |},
     Some handleVLESSProtocol).

(** [`vmess://${btoa(JSON.stringify(vmess))}`] *)
Definition vmess_link (vmess : json) : completion jsstring :=
  match btoa (JSON_stringify vmess) with
  | Normal b => Normal (lit "vmess://" ++ b)
  | Throw => Throw
  end.

(** [list.map(f)] where [f] may raise. *)
Fixpoint map_completion {A B : Type} (f : A -> completion B) (l : list A)
  : completion (list B) :=
  match l with
  | [] => Normal []
  | x :: l' =>
      match f x with
      | Normal y =>
          match map_completion f l' with
          | Normal ys => Normal (y :: ys)
          | Throw => Throw
          end
      | Throw => Throw
      end
  end.

(** The [fetch] handler of the default export: lines 31-82.  [htmlPage] is
    the page of lines 361-468 and [randomUUID] what [crypto.randomUUID()]
    returns. *)
Definition worker_fetch (htmlPage randomUUID : jsstring) (request : Request)
  : completion (Response * option session) :=
  let path := pathname request in
  if strict_eq path (lit "/vless") || strict_eq path (lit "/vmess") then
    Normal (handleVLESS request)
  else if strict_eq path (lit "/generate") then
    let uuid := randomUUID in
    let vmessConfig := generateVmessConfig uuid (header_host request) in
    let vlessConfig := generateVlessConfig uuid (header_host request) in
    match vmess_link vmessConfig with
    | Normal link =>
        Normal
          (json_response
             (JSON_stringify_2
                (JObject [("uuid", JString uuid);
                          ("vmess", vmessConfig);
                          ("vless", JString vlessConfig);
                          ("qrcode_vmess", JString link);
                          ("qrcode_vless", JString vlessConfig)])),
           None)
    | Throw => Throw
    end
  else if strict_eq path (lit "/sub") then
    let host := header_host request in
    match map_completion
            (fun user => vmess_link (generateVmessConfig (lit (uuid user)) host))
            VLESS_USERS with
    | Normal links =>
        match btoa (join [10] links) with
        | Normal content =>
            Normal
              ({| response_body := Some content;
                  status := 200;
                  response_headers :=
                    [("Content-Type", "text/plain; charset=utf-8");
                     ("Subscription-Userinfo",
                      "upload=0; download=0; total=10737418240000000; expire=2546249531")];
                  webSocket := false |},
               None)
        | Throw => Throw
        end
    | Throw => Throw
    end
  else if strict_eq path (lit "/") then
    Normal ({| response_body := Some htmlPage;
               status := 200;
               response_headers := [("Content-Type", "text/html")];
               webSocket := false |},
            None)
  else
    Normal ({| response_body := Some (lit "VLESS/VMess Worker");
               status := 200;
               response_headers := [];
               webSocket := false |},
            None).

(** Sample requests. *)
Definition sample_subscription : Request :=
  {| pathname := lit "/sub";
     header_Upgrade := None;
     header_host := Some (lit "worker.example.com");
     param_uuid := None;
     param_id := None |}.

Definition sample_fallback : Request :=
  {| pathname := lit "/vless";
     header_Upgrade := None;
     header_host := Some (lit "worker.example.com");
     param_uuid := Some (lit "not-a-uuid");
     param_id := None |}.

(** [request] with another [id] parameter. *)
Definition with_param_id (id : option jsstring) (request : Request) : Request :=
  {| pathname := pathname request;
     header_Upgrade := header_Upgrade request;
     header_host := header_host request;
     param_uuid := param_uuid request;
     param_id := id |}.

Definition sample_unknown_user : Request :=
  {| pathname := lit "/vless";
     header_Upgrade := Some (lit "WebSocket");
     header_host := Some (lit "worker.example.com");
     param_uuid := Some (lit "62a9adef-40b2-477a-861f-ce1e8604bc35");
     param_id := None |}.

(** * Properties *)

(** ** The helpers on concrete values *)

Example identifier_text :
  formatUUID (arrayBufferToHexString user_bytes)
  = "62a9adef-40b2-477a-861f-ce1e8604bc34".
Proof. reflexivity. Qed.

Example identifier_text_short :
  formatUUID (arrayBufferToHexString (bytes_of [1; 2; 255])) = "0102ff----".
Proof. reflexivity. Qed.

Example ipv4_host_and_port :
  let buffer := first_message user_bytes 1 443 [1; 93; 184; 216; 34] [] in
  parse_address buffer = Some (lit "93.184.216.34", Some 4)
  /\ port_of buffer = 443.
Proof. split; reflexivity. Qed.

Example ipv4_host_truncated :
  parse_address (first_message user_bytes 1 443 [1; 93; 184] [])
  = Some (lit "93.184.undefined.undefined", Some 4).
Proof. reflexivity. Qed.

Example domain_host :
  parse_address
    (first_message user_bytes 1 80
       [2; 11; 101; 120; 97; 109; 112; 108; 101; 46; 99; 111; 109] [71; 69; 84])
  = Some (lit "example.com", Some 12).
Proof. reflexivity. Qed.

Example domain_host_without_length :
  parse_address (first_message user_bytes 1 80 [2] []) = Some ([], None).
Proof. reflexivity. Qed.

Example decode_with_byte_order_mark :
  TextDecoder_decode (bytes_of [0xEF; 0xBB; 0xBF; 0x47; 0xC3; 0xA9; 0xC3; 0x28])
  = [0x47; 0xE9; 0xFFFD; 0x28].
Proof. reflexivity. Qed.

Example request_of_text :
  requestInit
    (lit ("POST /a HTTP/1.1" ++ CRLF ++ "Host: example.com" ++ CRLF
          ++ "X: 1: 2" ++ CRLF ++ "Host: other" ++ CRLF ++ CRLF ++ "body"))
  = {| method := lit "POST";
       headers := [(lit "Host", lit "other"); (lit "X", lit "1")];
       body := Some (lit "body") |}.
Proof. reflexivity. Qed.

Example url_of_target :
  target_url (lit "example.com") 443 = lit "https://example.com:443"
  /\ target_url (lit "10.0.0.1") 8080 = lit "http://10.0.0.1:8080".
Proof. split; reflexivity. Qed.

(** ** Hexadecimal text of bytes *)

Lemma hex2_digits (b : byte) :
  hex2 b = String (hi_digit b) (String (lo_digit b) EmptyString).
Proof. destruct b; reflexivity. Qed.

Lemma byte_of_digits_hex (b : byte) :
  byte_of_digits (hi_digit b) (lo_digit b) = b.
Proof. destruct b; reflexivity. Qed.

Lemma digits_inj (b b' : byte) :
  hi_digit b = hi_digit b' -> lo_digit b = lo_digit b' -> b = b'.
Proof.
  intros Hh Hl.
  rewrite <- (byte_of_digits_hex b), <- (byte_of_digits_hex b').
  now rewrite Hh, Hl.
Qed.

Lemma lower_hi_digit (b : byte) : lower_char (hi_digit b) = hi_digit b.
Proof. destruct b; reflexivity. Qed.

Lemma lower_lo_digit (b : byte) : lower_char (lo_digit b) = lo_digit b.
Proof. destruct b; reflexivity. Qed.

(** ** The identifier check *)

Ltac uuid_norm H :=
  unfold arrayBufferToHexString, formatUUID, substr in H;
  cbn [map] in H; rewrite ?hex2_digits in H;
  cbn [String.concat String.append String.substring toLowerCase] in H;
  rewrite ?lower_hi_digit, ?lower_lo_digit in H;
  change (lower_char "-") with "-"%char in H.

(** Only the sixteen bytes of the configured identifier yield its text. *)
Lemma uuid_text_exact (l : bytes) :
  (List.length l <= 16)%nat ->
  toLowerCase (formatUUID (arrayBufferToHexString l))
  = "62a9adef-40b2-477a-861f-ce1e8604bc34" ->
  l = user_bytes.
Proof.
  intros Hlen H.
  do 17 (destruct l as [|? l]; [uuid_norm H; try discriminate H|]).
  all: try (cbn in Hlen; lia).
  repeat (let X := fresh "Hc" in injection H as X H).
  let v := eval vm_compute in user_bytes in change user_bytes with v.
  repeat f_equal; apply digits_inj; (etransitivity; [eassumption | reflexivity]).
Qed.

Lemma slice_length (buffer : bytes) (n : nat) :
  (List.length (slice buffer 0 n) <= n)%nat.
Proof. unfold slice. rewrite Nat.sub_0_r. apply firstn_le_length. Qed.

Lemma find_user_known (buffer : bytes) :
  slice buffer 0 16 = user_bytes ->
  find_user VLESS_USERS (uuid_of buffer)
  = Some {| uuid := "62a9adef-40b2-477a-861f-ce1e8604bc34";
            email := "user@example.com"; level := 0; alterId := 0 |}
  /\ uuid_of buffer = "62a9adef-40b2-477a-861f-ce1e8604bc34".
Proof. intros H. unfold uuid_of. rewrite H. split; reflexivity. Qed.

Lemma find_user_unknown (buffer : bytes) :
  slice buffer 0 16 <> user_bytes ->
  find_user VLESS_USERS (uuid_of buffer) = None.
Proof.
  intros Hne. unfold find_user, VLESS_USERS, uuid_of. cbn [find uuid].
  destruct (String.eqb _ _) eqn:E; [|reflexivity].
  apply String.eqb_eq in E. exfalso. apply Hne.
  apply uuid_text_exact; [apply slice_length|]. symmetry. exact E.
Qed.

(** ** What [firstMessageHandler] does, case by case *)

Lemma firstMessageHandler_text send_throws t s :
  firstMessageHandler send_throws (TextData t) s
  = (s, [Close 1008 "Invalid data format"], Normal tt).
Proof. reflexivity. Qed.

Lemma firstMessageHandler_binary send_throws buffer s :
  firstMessageHandler send_throws (ArrayBuffer buffer) s =
  match find_user VLESS_USERS (uuid_of buffer) with
  | None => (s, [Close 1008 "Invalid user"], Normal tt)
  | Some _ =>
      let s1 := with_userId (uuid_of buffer) s in
      match parse_address buffer with
      | None => (s1, [Close 1008 "Invalid address type"], Normal tt)
      | Some (address, _) =>
          let udp := is_udp_command (index buffer 17) in
          let s2 := with_isUDP udp (with_target address (port_of buffer) s1) in
          if send_throws success_response then
            (s2, [Send success_response; Close 1011 "Protocol error"], Normal tt)
          else if udp then
            if send_throws (udp_notice address (port_of buffer)) then
              (s2, [Send success_response;
                    Send (udp_notice address (port_of buffer));
                    Close 1011 "Protocol error"], Normal tt)
            else
              (s2, [Send success_response;
                    Send (udp_notice address (port_of buffer))], Normal tt)
          else
            (with_onmessage (RelayTCP address (port_of buffer)) s2,
             [Send success_response], Normal tt)
      end
  end.
Proof.
  unfold firstMessageHandler, first_message_try, try_catch, bind, uuid_of, port_of.
  destruct (find_user _ _); [|reflexivity].
  destruct (parse_address buffer) as [[address len]|]; [|reflexivity].
  unfold set_userId, set_target, set_isUDP, modify, ws_send, handleUDP, proxyTCP,
    set_onmessage, modify, ws_send.
  destruct (send_throws success_response); [reflexivity|].
  destruct (is_udp_command (index buffer 17)); cbn [negb].
  - destruct (send_throws _); reflexivity.
  - reflexivity.
Qed.

(** ** The message listener along a run *)

Ltac split_ifs :=
  repeat match goal with
         | |- context [if ?b then _ else _] => destruct b
         end.

Lemma messageHandler_listener send_throws host port d s :
  onmessage (fst (fst (messageHandler send_throws host port d s))) = onmessage s.
Proof.
  destruct d as [payload|t]; [|reflexivity].
  unfold messageHandler, try_catch, bind, ws_send, ws_close, fetch, ret.
  split_ifs; reflexivity.
Qed.

Lemma fetch_fulfilled_listener send_throws responseBody s :
  onmessage (fst (fst (fetch_fulfilled send_throws responseBody s))) = onmessage s.
Proof.
  unfold fetch_fulfilled, try_catch, ws_send, ret. split_ifs; reflexivity.
Qed.

Lemma fetch_rejected_listener send_throws s :
  onmessage (fst (fst (fetch_rejected send_throws s))) = onmessage s.
Proof.
  unfold fetch_rejected, try_catch, ws_send, ret. split_ifs; reflexivity.
Qed.

Lemma firstMessageHandler_listener send_throws d s :
  onmessage s = NoListener ->
  onmessage (fst (fst (firstMessageHandler send_throws d s))) <> FirstMessage.
Proof.
  intros Hs. destruct d as [buffer|t].
  - rewrite firstMessageHandler_binary.
    destruct (find_user _ _); [|cbn; congruence].
    destruct (parse_address buffer) as [[address len]|]; [|cbn; congruence].
    cbv zeta. split_ifs; cbn; congruence.
  - cbn. congruence.
Qed.

(** Whatever is delivered, a session that has left the handshake phase
    stays out of it, and a message always leaves it out of it. *)
Lemma step_listener send_throws s i :
  onmessage s <> FirstMessage \/ (exists d, i = Message d) ->
  onmessage (fst (fst (step send_throws s i))) <> FirstMessage.
Proof.
  intros H. destruct i as [d|id responseBody|id]; cbn [step].
  - destruct (onmessage s) eqn:E.
    + unfold bind, set_onmessage, modify.
      pose proof (firstMessageHandler_listener send_throws d
                    (with_onmessage NoListener s) eq_refl) as Hl.
      destruct (firstMessageHandler send_throws d (with_onmessage NoListener s))
        as [[s1 c1] r1]. exact Hl.
    + rewrite messageHandler_listener, E. discriminate.
    + cbn. rewrite E. discriminate.
  - destruct H as [H|[d Hd]]; [|discriminate Hd].
    destruct (is_pending id s); [|exact H].
    unfold bind, set_pending, modify.
    pose proof (fetch_fulfilled_listener send_throws responseBody
                  (with_pending (remove_id id (pending s)) (next_id s) s)) as Hl.
    destruct (fetch_fulfilled _ _ _) as [[s1 c1] r1]. cbn in Hl |- *.
    rewrite Hl. exact H.
  - destruct H as [H|[d Hd]]; [|discriminate Hd].
    destruct (is_pending id s); [|exact H].
    unfold bind, set_pending, modify.
    pose proof (fetch_rejected_listener send_throws
                  (with_pending (remove_id id (pending s)) (next_id s) s)) as Hl.
    destruct (fetch_rejected _ _) as [[s1 c1] r1]. cbn in Hl |- *.
    rewrite Hl. exact H.
Qed.

Lemma run_listener s turns :
  onmessage s <> FirstMessage ->
  onmessage (fst (run s turns)) <> FirstMessage /\ handshakes s turns = O.
Proof.
  revert s. induction turns as [|[send_throws i] rest IH]; intros s Hs.
  - split; [exact Hs | reflexivity].
  - cbn [run handshakes].
    pose proof (step_listener send_throws s i (or_introl Hs)) as H1.
    destruct (step send_throws s i) as [[s1 c1] r1]. cbn [fst] in *.
    destruct (IH s1 H1) as [IH1 IH2].
    destruct (run s1 rest) as [s2 c2]. cbn [fst] in *.
    split; [exact IH1|].
    rewrite IH2. unfold parses_handshake.
    destruct i; [|reflexivity..]. destruct (onmessage s); [congruence|reflexivity..].
Qed.

Lemma not_first_cases (l : listener) :
  l <> FirstMessage ->
  (exists host port, l = RelayTCP host port) \/ l = NoListener.
Proof.
  destruct l as [|host port|]; intros H.
  - congruence.
  - left. now exists host, port.
  - now right.
Qed.

Lemma handshakes_le_1 s turns : (handshakes s turns <= 1)%nat.
Proof.
  revert s. induction turns as [|[send_throws i] rest IH]; intros s.
  - cbn. lia.
  - cbn [handshakes]. destruct (parses_handshake s i) eqn:E.
    + assert (Hm : exists d, i = Message d).
      { destruct i as [d| |]; [now exists d|discriminate E..]. }
      pose proof (step_listener send_throws s i (or_intror Hm)) as H1.
      destruct (run_listener _ rest H1) as [_ H0]. rewrite H0. lia.
    + specialize (IH (fst (fst (step send_throws s i)))). lia.
Qed.

(** C9: a channel's first message is the only one ever handled by the
    handshake handler.  In every run at most one turn is handled by
    [firstMessageHandler], and exactly one in a run of a new session that
    starts with a message; once a message has been delivered the listener
    is the TCP relay handler or there is no message listener at all, and
    that stays so for the rest of the run, during which no turn is handled
    by [firstMessageHandler] again. *)
Theorem single_handshake_per_channel :
  forall (s : session) (send_throws : bytes -> bool) (d : data) (turns : list turn),
    (handshakes s ((send_throws, Message d) :: turns) <= 1)%nat /\
    handshakes handleVLESSProtocol ((send_throws, Message d) :: turns) = 1%nat /\
    let s1 := fst (fst (step send_throws s (Message d))) in
    ((exists host port, onmessage s1 = RelayTCP host port)
     \/ onmessage s1 = NoListener) /\
    handshakes s1 turns = O /\
    let s2 := fst (run s1 turns) in
    ((exists host port, onmessage s2 = RelayTCP host port)
     \/ onmessage s2 = NoListener).
Proof.
  intros s send_throws d turns. split; [apply handshakes_le_1|].
  assert (Hm : forall s0,
             onmessage (fst (fst (step send_throws s0 (Message d)))) <> FirstMessage).
  { intros s0. apply step_listener. right. now exists d. }
  split.
  - cbn [handshakes]. destruct (run_listener _ turns (Hm handleVLESSProtocol)) as [_ H0].
    rewrite H0. reflexivity.
  - cbv zeta. destruct (run_listener _ turns (Hm s)) as [H2 H3].
    repeat split; auto using not_first_cases.
Qed.

(** ** Sessions without a message listener *)

Lemma step_inert send_throws s i :
  onmessage s = NoListener -> pending s = [] ->
  step send_throws s i = (s, [], Normal tt).
Proof.
  intros Hl Hp. destruct i as [d|id responseBody|id]; cbn [step].
  - now rewrite Hl.
  - unfold is_pending. now rewrite Hp.
  - unfold is_pending. now rewrite Hp.
Qed.

Lemma run_inert s turns :
  onmessage s = NoListener -> pending s = [] -> run s turns = (s, []).
Proof.
  intros Hl Hp. induction turns as [|[send_throws i] rest IH]; [reflexivity|].
  cbn [run]. rewrite step_inert by assumption. now rewrite IH.
Qed.

Lemma step_first_message send_throws s d :
  onmessage s = FirstMessage ->
  step send_throws s (Message d)
  = firstMessageHandler send_throws d (with_onmessage NoListener s).
Proof.
  intros Hl. cbn [step]. rewrite Hl. unfold bind, set_onmessage, modify.
  destruct (firstMessageHandler _ _ _) as [[s1 c1] r1]. reflexivity.
Qed.

(** ** Inverting one bit of an identifier *)

Lemma flip_bit_neq (b : byte) (k : N) : k < 8 -> flip_bit b k <> b.
Proof.
  intros Hk.
  assert (Hc : k = 0 \/ k = 1 \/ k = 2 \/ k = 3 \/ k = 4 \/ k = 5 \/ k = 6 \/ k = 7)
    by lia.
  repeat (destruct Hc as [->|Hc]); try subst k; destruct b; discriminate.
Qed.

Lemma flip_at_neq (l : bytes) (i : nat) (k : N) :
  (i < List.length l)%nat -> k < 8 -> flip_at l i k <> l.
Proof.
  revert i. induction l as [|b l IH]; intros i Hi Hk; [cbn in Hi; lia|].
  destruct i as [|i]; cbn [flip_at]; intros E; injection E.
  - intros Hb. exact (flip_bit_neq b k Hk Hb).
  - intros Hl. apply (IH i); [cbn in Hi; lia | exact Hk | exact Hl].
Qed.

Lemma flip_at_length (l : bytes) (i : nat) (k : N) :
  List.length (flip_at l i k) = List.length l.
Proof.
  revert i. induction l as [|b l IH]; intros [|i]; cbn; auto.
Qed.

Lemma firstn_flip_at (n : nat) (l : bytes) (i : nat) (k : N) :
  (i < n)%nat -> firstn n (flip_at l i k) = flip_at (firstn n l) i k.
Proof.
  revert l i. induction n as [|n IH]; intros l i Hi; [lia|].
  destruct l as [|b l]; [reflexivity|].
  destruct i as [|i]; cbn [flip_at firstn]; [reflexivity|].
  rewrite IH by lia. reflexivity.
Qed.

Lemma slice_0 (buffer : bytes) (n : nat) : slice buffer 0 n = firstn n buffer.
Proof. unfold slice. now rewrite Nat.sub_0_r. Qed.

(** C4: authentication is an exact match on the sixteen identifier bytes.
    [user_bytes] are the bytes whose text is the identifier of the one
    configured user.  A first message that starts with them is
    authenticated ([userId] is set); a first message whose first sixteen
    bytes are anything else - in particular the identifier with any single
    bit inverted - is not: over the whole run the only call made is
    [close(1008, 'Invalid user')], so no success response is sent and no
    upstream request is ever issued. *)
Theorem authentication_is_exact :
  forall (send_throws : bytes -> bool) (buffer : bytes) (turns : list turn),
    map uuid VLESS_USERS = [uuid_of user_bytes] /\
    (slice buffer 0 16 = user_bytes ->
       find_user VLESS_USERS (uuid_of buffer) <> None /\
       userId (fst (fst (step send_throws handleVLESSProtocol
                              (Message (ArrayBuffer buffer)))))
       = Some "62a9adef-40b2-477a-861f-ce1e8604bc34") /\
    (slice buffer 0 16 <> user_bytes ->
       find_user VLESS_USERS (uuid_of buffer) = None /\
       run handleVLESSProtocol ((send_throws, Message (ArrayBuffer buffer)) :: turns)
       = (with_onmessage NoListener handleVLESSProtocol,
          [Close 1008 "Invalid user"])) /\
    (forall (i : nat) (k : N),
       slice buffer 0 16 = user_bytes -> (i < 16)%nat -> k < 8 ->
       slice (flip_at buffer i k) 0 16 <> user_bytes).
Proof.
  intros send_throws buffer turns. split; [reflexivity|]. repeat split.
  - destruct (find_user_known buffer H) as [-> _]. discriminate.
  - destruct (find_user_known buffer H) as [Hu Hid].
    rewrite step_first_message by reflexivity.
    rewrite firstMessageHandler_binary, Hu, Hid.
    destruct (parse_address buffer) as [[address len]|]; [|reflexivity].
    cbv zeta. split_ifs; reflexivity.
  - now apply find_user_unknown.
  - cbn [run]. rewrite step_first_message by reflexivity.
    rewrite firstMessageHandler_binary, (find_user_unknown buffer H).
    rewrite run_inert by reflexivity. reflexivity.
  - intros i k Hb Hi Hk. rewrite slice_0 in *.
    rewrite firstn_flip_at by exact Hi. rewrite Hb.
    apply flip_at_neq; [exact Hi | exact Hk].
Qed.

(** The three cases at sample messages: the configured identifier, the same
    with its first bit inverted, and a flip of the last identifier bit. *)
Lemma authentication_is_exact_witness :
  userId (fst (fst (step sends_ok handleVLESSProtocol
                         (Message (ArrayBuffer msg_tcp_web)))))
  = Some "62a9adef-40b2-477a-861f-ce1e8604bc34" /\
  run handleVLESSProtocol
      [(sends_ok, Message (ArrayBuffer msg_unknown_user));
       (sends_ok, Message (ArrayBuffer http_get))]
  = (with_onmessage NoListener handleVLESSProtocol, [Close 1008 "Invalid user"]) /\
  slice (flip_at msg_tcp_web 15 7) 0 16 <> user_bytes.
Proof.
  split; [|split].
  - apply (authentication_is_exact sends_ok msg_tcp_web []). reflexivity.
  - apply (authentication_is_exact sends_ok msg_unknown_user
             [(sends_ok, Message (ArrayBuffer http_get))]).
    vm_compute. discriminate.
  - apply (authentication_is_exact sends_ok msg_tcp_web []);
      [reflexivity | lia | lia].
Defined.

(** ** Totality of the handshake handler *)

Lemma index_past_end (buffer : bytes) (i : nat) :
  (List.length buffer <= i)%nat -> index buffer i = None.
Proof.
  intros H. unfold index. now rewrite (proj2 (nth_error_None buffer i) H).
Qed.

(** C10: the handshake handler is total on binary first messages and never
    lets an exception escape.  A read past the end of the buffer is
    [undefined]; the handler always completes normally; when the first
    sixteen bytes are not the configured identifier its only call is
    [close(1008, 'Invalid user')]; and when its [try] block raises, the
    calls made so far are followed by [close(1011, 'Protocol error')]. *)
Theorem first_message_handler_total :
  forall (send_throws : bytes -> bool) (buffer : bytes) (s : session),
    (forall i : nat, (List.length buffer <= i)%nat -> index buffer i = None) /\
    exists (s' : session) (calls : list call),
      firstMessageHandler send_throws (ArrayBuffer buffer) s
      = (s', calls, Normal tt) /\
      (slice buffer 0 16 <> user_bytes ->
         s' = s /\ calls = [Close 1008 "Invalid user"]) /\
      (forall s1 c1,
         first_message_try send_throws (ArrayBuffer buffer) s = (s1, c1, Throw) ->
         s' = s1 /\ calls = c1 ++ [Close 1011 "Protocol error"]) /\
      (forall s1 c1,
         first_message_try send_throws (ArrayBuffer buffer) s = (s1, c1, Normal tt) ->
         s' = s1 /\ calls = c1).
Proof.
  intros send_throws buffer s. split; [apply index_past_end|].
  pose proof (firstMessageHandler_binary send_throws buffer s) as Hb.
  unfold firstMessageHandler, try_catch, ws_close in *.
  destruct (first_message_try send_throws (ArrayBuffer buffer) s)
    as [[s1 c1] [[]|]].
  - exists s1, c1. repeat split; try congruence.
    + rewrite (find_user_unknown buffer H) in Hb. congruence.
    + rewrite (find_user_unknown buffer H) in Hb. congruence.
  - exists s1, (c1 ++ [Close 1011 "Protocol error"]).
    repeat split; try congruence.
    + rewrite (find_user_unknown buffer H) in Hb. congruence.
    + rewrite (find_user_unknown buffer H) in Hb. congruence.
Qed.

(** An empty first message, a first message on a runtime whose [send]
    raises, and a read past the end of a 17-byte buffer. *)
Lemma first_message_handler_total_witness :
  firstMessageHandler sends_ok (ArrayBuffer []) handleVLESSProtocol
  = (handleVLESSProtocol, [Close 1008 "Invalid user"], Normal tt) /\
  firstMessageHandler sends_fail (ArrayBuffer msg_tcp_web) handleVLESSProtocol
  = (fst (fst (first_message_try sends_fail (ArrayBuffer msg_tcp_web)
                 handleVLESSProtocol)),
     [Send success_response; Close 1011 "Protocol error"], Normal tt) /\
  index msg_short 17 = None.
Proof.
  split; [|split].
  - destruct (first_message_handler_total sends_ok [] handleVLESSProtocol)
      as [_ (s' & calls & Heq & Hu & _)].
    destruct Hu as [Hs Hc]; [vm_compute; discriminate|].
    rewrite Heq, Hs, Hc. reflexivity.
  - destruct (first_message_handler_total sends_fail msg_tcp_web handleVLESSProtocol)
      as [_ (s' & calls & Heq & _ & Ht & _)].
    destruct (Ht _ _ eq_refl) as [Hs Hc].
    rewrite Heq, Hs, Hc. reflexivity.
  - apply (first_message_handler_total sends_ok msg_short handleVLESSProtocol).
    vm_compute. lia.
Defined.

(** ** The IPv6 text *)

(** C7, evaluated: the sixteen address bytes are written one byte per
    colon-separated group, so the text is not canonical IPv6.  The handler
    derives ["20:1:d:b8::1"] for 2001:db8::1, sixteen two-digit groups for
    the all-ones address, and collapses every run of zero bytes, not only
    the longest. *)
Lemma ipv6_text_groups_bytes :
  targetHost (fst (fst (step sends_ok handleVLESSProtocol
                             (Message (ArrayBuffer msg_tcp_ipv6)))))
  = Some (lit "20:1:d:b8::1") /\
  ipv6_text (bytes_of [0x20; 0x01; 0x0d; 0xb8; 0; 0; 0; 0; 0; 0; 0; 0; 0; 0; 0; 1])
  = "20:1:d:b8::1" /\
  ipv6_text (bytes_of [255; 255; 255; 255; 255; 255; 255; 255;
                       255; 255; 255; 255; 255; 255; 255; 255])
  = "ff:ff:ff:ff:ff:ff:ff:ff:ff:ff:ff:ff:ff:ff:ff:ff" /\
  ipv6_text (bytes_of [0x20; 0x01; 0; 0; 0; 0; 0; 1; 0; 0; 0; 0; 0; 0; 0; 1])
  = "20:1::1::1" /\
  ipv6_text (bytes_of [0; 0; 0; 0; 0; 0; 0; 0; 0; 0; 0; 0; 0; 0; 0; 0]) = "::" /\
  parse_address msg_tcp_ipv6 = Some (lit "20:1:d:b8::1", Some 16).
Proof. repeat split; reflexivity. Qed.

(** ** First messages that are too short *)

Lemma parse_address_short (buffer : bytes) :
  (List.length buffer < 21)%nat -> parse_address buffer = None.
Proof.
  intros H. unfold parse_address. rewrite index_past_end by lia. reflexivity.
Qed.

Lemma short_slice_unknown (buffer : bytes) :
  (List.length buffer < 16)%nat -> slice buffer 0 16 <> user_bytes.
Proof.
  intros H E.
  assert (E16 : List.length (slice buffer 0 16) = 16%nat) by now rewrite E.
  rewrite slice_0, length_firstn in E16. lia.
Qed.

(** C6, the claim at a 17-byte first message: the user is authenticated
    and the channel is closed for its address type, not for its length. *)
Lemma short_message_is_authenticated :
  (List.length msg_short < 18)%nat /\
  step sends_ok handleVLESSProtocol (Message (ArrayBuffer msg_short))
  = (with_userId "62a9adef-40b2-477a-861f-ce1e8604bc34"
       (with_onmessage NoListener handleVLESSProtocol),
     [Close 1008 "Invalid address type"], Normal tt) /\
  userId (fst (fst (step sends_ok handleVLESSProtocol
                         (Message (ArrayBuffer msg_short))))) <> None.
Proof.
  split; [vm_compute; lia|]. split; [reflexivity|]. vm_compute. discriminate.
Qed.

(** C6, amended: a first message shorter than 21 bytes (so every one
    shorter than 18) meets no length check.  The channel is closed with
    code 1008 and nothing else is done: with reason 'Invalid user' when the
    first sixteen bytes are not the configured identifier, which is always
    so below 16 bytes; otherwise the user is authenticated and the reason
    is 'Invalid address type'.  No success response is sent and no message
    listener is left. *)
Theorem short_first_message_closes :
  forall (send_throws : bytes -> bool) (buffer : bytes) (s : session),
    onmessage s = FirstMessage ->
    (List.length buffer < 21)%nat ->
    step send_throws s (Message (ArrayBuffer buffer))
    = (if bytes_eq_dec (slice buffer 0 16) user_bytes
       then (with_userId "62a9adef-40b2-477a-861f-ce1e8604bc34"
               (with_onmessage NoListener s),
             [Close 1008 "Invalid address type"], Normal tt)
       else (with_onmessage NoListener s,
             [Close 1008 "Invalid user"], Normal tt)) /\
    ((List.length buffer < 16)%nat ->
     step send_throws s (Message (ArrayBuffer buffer))
     = (with_onmessage NoListener s, [Close 1008 "Invalid user"], Normal tt)).
Proof.
  intros send_throws buffer s Hs Hlen.
  rewrite step_first_message by exact Hs.
  rewrite firstMessageHandler_binary, parse_address_short by exact Hlen.
  split.
  - destruct (bytes_eq_dec (slice buffer 0 16) user_bytes) as [E|E].
    + destruct (find_user_known buffer E) as [-> ->]. reflexivity.
    + now rewrite find_user_unknown.
  - intros H16. now rewrite find_user_unknown by now apply short_slice_unknown.
Qed.

(** A 17-byte message with the configured identifier and a 3-byte one. *)
Lemma short_first_message_closes_witness :
  step sends_ok handleVLESSProtocol (Message (ArrayBuffer msg_short))
  = (with_userId "62a9adef-40b2-477a-861f-ce1e8604bc34"
       (with_onmessage NoListener handleVLESSProtocol),
     [Close 1008 "Invalid address type"], Normal tt) /\
  step sends_ok handleVLESSProtocol (Message (ArrayBuffer (bytes_of [1; 2; 3])))
  = (with_onmessage NoListener handleVLESSProtocol,
     [Close 1008 "Invalid user"], Normal tt).
Proof.
  split.
  - apply (short_first_message_closes sends_ok msg_short handleVLESSProtocol);
      [reflexivity | vm_compute; lia].
  - apply (short_first_message_closes sends_ok (bytes_of [1; 2; 3])
             handleVLESSProtocol);
      [reflexivity | vm_compute; lia | vm_compute; lia].
Defined.

(** ** The command byte *)

Lemma is_udp_command_false (command : option N) :
  command <> Some 2 -> is_udp_command command = false.
Proof.
  intros H. destruct command as [[|p]|]; try reflexivity.
  destruct p as [p|p|]; try reflexivity.
  destruct p; try reflexivity. congruence.
Qed.

(** C8, the claim at a first message whose command byte is 3: the success
    response is sent and the TCP relay handler is installed. *)
Lemma command_3_is_relayed :
  index msg_command3 17 = Some 3 /\
  step sends_ok handleVLESSProtocol (Message (ArrayBuffer msg_command3))
  = (with_onmessage (RelayTCP (lit "10.0.0.1") 1234)
       (with_isUDP false
          (with_target (lit "10.0.0.1") 1234
             (with_userId "62a9adef-40b2-477a-861f-ce1e8604bc34"
                (with_onmessage NoListener handleVLESSProtocol)))),
     [Send success_response], Normal tt).
Proof. split; reflexivity. Qed.

(** C8, amended: the command byte is only compared with 2.  A first message
    of the configured user with address type 1, 2 or 3 whose command byte
    is anything but 2 - 1, any other value, or missing - is handled as TCP:
    the success response is sent and the TCP relay handler is installed.
    None of these command values closes the session. *)
Theorem command_other_than_udp_is_tcp :
  forall (send_throws : bytes -> bool) (buffer : bytes) (s : session)
         (address : text) (addressLength : option N),
    onmessage s = FirstMessage ->
    slice buffer 0 16 = user_bytes ->
    parse_address buffer = Some (address, addressLength) ->
    index buffer 17 <> Some 2 ->
    send_throws success_response = false ->
    step send_throws s (Message (ArrayBuffer buffer))
    = (with_onmessage (RelayTCP address (port_of buffer))
         (with_isUDP false
            (with_target address (port_of buffer)
               (with_userId "62a9adef-40b2-477a-861f-ce1e8604bc34"
                  (with_onmessage NoListener s)))),
       [Send success_response], Normal tt).
Proof.
  intros send_throws buffer s address addressLength Hs Hu Ha Hc Ht.
  rewrite step_first_message by exact Hs.
  rewrite firstMessageHandler_binary.
  destruct (find_user_known buffer Hu) as [-> ->].
  rewrite Ha, (is_udp_command_false _ Hc). cbv zeta. now rewrite Ht.
Qed.

(** The first message with command byte 3. *)
Lemma command_other_than_udp_is_tcp_witness :
  step sends_ok handleVLESSProtocol (Message (ArrayBuffer msg_command3))
  = (with_onmessage (RelayTCP (lit "10.0.0.1") (port_of msg_command3))
       (with_isUDP false
          (with_target (lit "10.0.0.1") (port_of msg_command3)
             (with_userId "62a9adef-40b2-477a-861f-ce1e8604bc34"
                (with_onmessage NoListener handleVLESSProtocol)))),
     [Send success_response], Normal tt).
Proof.
  apply (command_other_than_udp_is_tcp sends_ok msg_command3 handleVLESSProtocol
           (lit "10.0.0.1") (Some 4));
    [reflexivity | reflexivity | reflexivity | vm_compute; discriminate | reflexivity].
Defined.

(** ** UDP mode *)

(** C5, the claim at a UDP session that receives one framed datagram: the
    datagram message causes no call at all, and what the client is sent
    after the success response is a fixed text, not a framed datagram. *)
Lemma udp_datagram_is_ignored :
  run handleVLESSProtocol
      [(sends_ok, Message (ArrayBuffer msg_udp));
       (sends_ok, Message (ArrayBuffer framed_datagram))]
  = (with_isUDP true
       (with_target (lit "8.8.8.8") 53
          (with_userId "62a9adef-40b2-477a-861f-ce1e8604bc34"
             (with_onmessage NoListener handleVLESSProtocol))),
     [Send success_response;
      Send (TextEncoder_encode (lit "UDP to 8.8.8.8:53 received (simulated)"))]) /\
  step sends_ok
       (fst (fst (step sends_ok handleVLESSProtocol (Message (ArrayBuffer msg_udp)))))
       (Message (ArrayBuffer framed_datagram))
  = (fst (fst (step sends_ok handleVLESSProtocol (Message (ArrayBuffer msg_udp)))),
     [], Normal tt).
Proof. split; reflexivity. Qed.

(** C5, amended: UDP mode is simulated.  On a first message of the
    configured user with address type 1, 2 or 3 and command byte 2 the
    handler sends the success response and then one message, the UTF-8
    text "UDP to <host>:<port> received (simulated)", on the client
    channel, and installs no message listener: whatever is delivered
    afterwards causes no further call - no datagram framing is read or
    written and nothing is sent to the destination. *)
Theorem udp_mode_is_simulated :
  forall (send_throws : bytes -> bool) (buffer : bytes)
         (address : text) (addressLength : option N) (turns : list turn),
    slice buffer 0 16 = user_bytes ->
    parse_address buffer = Some (address, addressLength) ->
    index buffer 17 = Some 2 ->
    send_throws success_response = false ->
    send_throws (udp_notice address (port_of buffer)) = false ->
    run handleVLESSProtocol ((send_throws, Message (ArrayBuffer buffer)) :: turns)
    = (with_isUDP true
         (with_target address (port_of buffer)
            (with_userId "62a9adef-40b2-477a-861f-ce1e8604bc34"
               (with_onmessage NoListener handleVLESSProtocol))),
       [Send success_response; Send (udp_notice address (port_of buffer))]).
Proof.
  intros send_throws buffer address addressLength turns Hu Ha Hc Ht1 Ht2.
  cbn [run]. rewrite step_first_message by reflexivity.
  rewrite firstMessageHandler_binary.
  destruct (find_user_known buffer Hu) as [-> ->].
  rewrite Ha, Hc. cbv zeta. cbn [is_udp_command]. rewrite Ht1, Ht2.
  rewrite run_inert by reflexivity. reflexivity.
Qed.

(** A UDP session that is sent one framed datagram. *)
Lemma udp_mode_is_simulated_witness :
  run handleVLESSProtocol
      [(sends_ok, Message (ArrayBuffer msg_udp));
       (sends_ok, Message (ArrayBuffer framed_datagram))]
  = (with_isUDP true
       (with_target (lit "8.8.8.8") (port_of msg_udp)
          (with_userId "62a9adef-40b2-477a-861f-ce1e8604bc34"
             (with_onmessage NoListener handleVLESSProtocol))),
     [Send success_response; Send (udp_notice (lit "8.8.8.8") (port_of msg_udp))]).
Proof.
  apply (udp_mode_is_simulated sends_ok msg_udp (lit "8.8.8.8") (Some 4)
           [(sends_ok, Message (ArrayBuffer framed_datagram))]);
    reflexivity.
Defined.

(** ** The TCP relay handler *)

Lemma messageHandler_binary send_throws host port payload s :
  messageHandler send_throws host port (ArrayBuffer payload) s =
  let t := TextDecoder_decode payload in
  if (looks_like_web host port && is_http_request t)%bool then
    if startsWith (lit "CONNECT ") t then
      (s,
       Send connection_established ::
         (if send_throws connection_established
          then [Send bad_gateway]
          else [Close 1000 "CONNECT not fully supported"]),
       Normal tt)
    else
      (with_pending (pending s ++ [next_id s]) (S (next_id s)) s,
       [Fetch (next_id s) (target_url host port) (requestInit t)],
       Normal tt)
  else (s, [Send payload], Normal tt).
Proof.
  unfold messageHandler. cbv zeta.
  destruct (looks_like_web host port); cbn [andb].
  - destruct (is_http_request (TextDecoder_decode payload)).
    + destruct (startsWith (lit "CONNECT ") (TextDecoder_decode payload)).
      * unfold try_catch, bind, ws_send, ws_close, ret.
        destruct (send_throws connection_established);
          [destruct (send_throws bad_gateway)|]; reflexivity.
      * reflexivity.
    + unfold try_catch, ws_send, ret. destruct (send_throws payload); reflexivity.
  - unfold try_catch, ws_send, ret. destruct (send_throws payload); reflexivity.
Qed.

Lemma step_relay send_throws host port payload s :
  onmessage s = RelayTCP host port ->
  step send_throws s (Message (ArrayBuffer payload))
  = messageHandler send_throws host port (ArrayBuffer payload) s.
Proof. intros H. cbn [step]. now rewrite H. Qed.

Lemma step_fetch_fulfilled send_throws id responseBody s :
  is_pending id s = true ->
  step send_throws s (FetchFulfilled id responseBody)
  = (with_pending (remove_id id (pending s)) (next_id s) s,
     Send responseBody ::
       (if send_throws responseBody then [Send bad_gateway] else []),
     Normal tt).
Proof.
  intros H. cbn [step]. rewrite H.
  unfold bind, set_pending, modify, fetch_fulfilled, try_catch, ws_send, ret.
  destruct (send_throws responseBody);
    [destruct (send_throws bad_gateway)|]; reflexivity.
Qed.

Lemma step_fetch_rejected send_throws id s :
  is_pending id s = true ->
  step send_throws s (FetchRejected id)
  = (with_pending (remove_id id (pending s)) (next_id s) s,
     [Send bad_gateway], Normal tt).
Proof.
  intros H. cbn [step]. rewrite H.
  unfold bind, set_pending, modify, fetch_rejected, try_catch, ws_send, ret.
  destruct (send_throws bad_gateway); reflexivity.
Qed.

Lemma run_echo host port s (chunks : list ((bytes -> bool) * bytes)) :
  onmessage s = RelayTCP host port ->
  (forall c, In c chunks ->
     (looks_like_web host port
      && is_http_request (TextDecoder_decode (snd c)))%bool = false) ->
  run s (messages chunks) = (s, map (fun c => Send (snd c)) chunks).
Proof.
  intros Hs. induction chunks as [|[send_throws payload] rest IH]; intros Hc.
  - reflexivity.
  - cbn [messages map run fst snd].
    rewrite (step_relay _ host port) by exact Hs. rewrite messageHandler_binary. cbv zeta.
    pose proof (Hc (send_throws, payload) (or_introl eq_refl)) as Hp.
    cbn [snd] in Hp. rewrite Hp.
    fold (messages rest). rewrite IH by (intros c Hin; apply Hc; now right).
    reflexivity.
Qed.

(** C2, the claim at two TCP sessions.  A chunk received after the
    handshake is sent back to the client instead of to the destination,
    for which no call is made; and a chunk that starts with "GET " for a
    destination on port 80 is not forwarded as bytes but turned into a
    [fetch] of the destination's URL. *)
Lemma tcp_chunk_is_echoed_or_fetched :
  snd (run handleVLESSProtocol
         [(sends_ok, Message (ArrayBuffer msg_tcp_plain));
          (sends_ok, Message (ArrayBuffer raw_chunk))])
  = [Send success_response; Send raw_chunk] /\
  snd (run handleVLESSProtocol
         [(sends_ok, Message (ArrayBuffer msg_tcp_web));
          (sends_ok, Message (ArrayBuffer http_get))])
  = [Send success_response;
     Fetch 0 (lit "http://10.0.0.1:80")
       {| method := lit "GET"; headers := []; body := Some [] |}].
Proof. split; reflexivity. Qed.

(** C2, amended: in TCP mode no upstream byte connection exists.  For a
    binary message received after the handshake: when the destination port
    is 80 or 443 or the host contains ".com", ".org" or ".net", and the
    decoded message starts with "GET ", "POST " or "CONNECT ", the message
    is read as an HTTP request - for CONNECT, "HTTP/1.1 200 Connection
    Established" is sent and the channel closed with code 1000; otherwise
    one [fetch] of http(s)://host:port is issued, and when it is fulfilled
    the response body is sent to the client.  Every other message is sent
    back verbatim on the client channel, so a sequence of such messages is
    echoed verbatim and in arrival order. *)
Theorem tcp_relay_echoes_or_fetches :
  forall (send_throws : bytes -> bool) (host : text) (port : N) (s : session)
         (payload : bytes) (chunks : list ((bytes -> bool) * bytes))
         (id : nat) (responseBody : bytes),
    onmessage s = RelayTCP host port ->
    step send_throws s (Message (ArrayBuffer payload))
    = (let t := TextDecoder_decode payload in
       if (looks_like_web host port && is_http_request t)%bool then
         if startsWith (lit "CONNECT ") t then
           (s,
            Send connection_established ::
              (if send_throws connection_established
               then [Send bad_gateway]
               else [Close 1000 "CONNECT not fully supported"]),
            Normal tt)
         else
           (with_pending (pending s ++ [next_id s]) (S (next_id s)) s,
            [Fetch (next_id s) (target_url host port) (requestInit t)],
            Normal tt)
       else (s, [Send payload], Normal tt)) /\
    ((forall c, In c chunks ->
        (looks_like_web host port
         && is_http_request (TextDecoder_decode (snd c)))%bool = false) ->
     run s (messages chunks) = (s, map (fun c => Send (snd c)) chunks)) /\
    (is_pending id s = true ->
     step send_throws s (FetchFulfilled id responseBody)
     = (with_pending (remove_id id (pending s)) (next_id s) s,
        Send responseBody ::
          (if send_throws responseBody then [Send bad_gateway] else []),
        Normal tt)).
Proof.
  intros send_throws host port s payload chunks id responseBody Hs.
  split; [|split].
  - rewrite (step_relay _ host port) by exact Hs. apply messageHandler_binary.
  - now apply run_echo.
  - apply step_fetch_fulfilled.
Qed.

(** Two chunks echoed in order, and a fulfilled [fetch]. *)
Lemma tcp_relay_echoes_or_fetches_witness :
  run relay_plain (messages [(sends_ok, raw_chunk); (sends_ok, framed_datagram)])
  = (relay_plain, [Send raw_chunk; Send framed_datagram]) /\
  step sends_ok relay_web_pending (FetchFulfilled 0 raw_chunk)
  = (with_pending [] 1 relay_web_pending, [Send raw_chunk], Normal tt).
Proof.
  split.
  - apply (tcp_relay_echoes_or_fetches sends_ok (lit "10.0.0.1") 1234 relay_plain
             raw_chunk [(sends_ok, raw_chunk); (sends_ok, framed_datagram)] 0 []);
      [reflexivity|].
    intros c [<-|[<-|[]]]; reflexivity.
  - apply (tcp_relay_echoes_or_fetches sends_ok (lit "10.0.0.1") 80
             relay_web_pending raw_chunk [] 0 raw_chunk); reflexivity.
Defined.

(** ** The success response *)

Lemma udp_notice_neq (host : text) (port : N) :
  udp_notice host port <> success_response.
Proof.
  assert (H : hd x00 (udp_notice host port) = "U"%byte) by reflexivity.
  intros E. rewrite E in H. discriminate H.
Qed.

Lemma first_occurrence_only (x : call) (rest pre post : list call) :
  ~ In x rest -> x :: rest = pre ++ x :: post -> pre = [] /\ ~ In x post.
Proof.
  intros Hn E. destruct pre as [|c pre].
  - injection E as <-. now split.
  - injection E as _ Hr. exfalso. apply Hn. rewrite Hr.
    apply in_or_app. right. now left.
Qed.

Lemma no_occurrence (x : call) (l pre post : list call) :
  ~ In x l -> l = pre ++ x :: post -> pre = [] /\ ~ In x post.
Proof.
  intros Hn E. exfalso. apply Hn. rewrite E. apply in_or_app. right. now left.
Qed.

(** What the handshake turn calls: the success response at most once and
    first, and never [fetch]. *)
Lemma first_message_calls send_throws d s s' calls r :
  firstMessageHandler send_throws d s = (s', calls, r) ->
  forallb (fun c => negb (is_fetch c)) calls = true /\
  pending s' = pending s /\
  (forall pre post, calls = pre ++ Send success_response :: post ->
                    pre = [] /\ ~ In (Send success_response) post).
Proof.
  destruct d as [buffer|t].
  - rewrite firstMessageHandler_binary.
    destruct (find_user _ _).
    2:{ intros [= <- <- <-]. split; [reflexivity | split; [reflexivity|]].
        intros pre post. apply no_occurrence. cbn. intuition discriminate. }
    destruct (parse_address buffer) as [[address len]|].
    2:{ intros [= <- <- <-]. split; [reflexivity | split; [reflexivity|]].
        intros pre post. apply no_occurrence. cbn. intuition discriminate. }
    cbv zeta.
    pose proof (udp_notice_neq address (port_of buffer)) as Hn.
    split_ifs; intros [= <- <- <-]; (split; [reflexivity | split; [reflexivity|]]);
      intros pre post; apply first_occurrence_only; cbn;
      intuition (try discriminate; congruence).
  - cbn. intros [= <- <- <-]. split; [reflexivity | split; [reflexivity|]].
    intros pre post. apply no_occurrence. cbn. intuition discriminate.
Qed.

(** C1, the claim at a session whose upstream request fails: the success
    response is the first call, made before any upstream request exists;
    the request issued later is rejected, and then nothing is retracted
    and the channel is not closed - a 502 text is sent instead. *)
Lemma response_is_sent_before_upstream :
  snd (run handleVLESSProtocol
         [(sends_ok, Message (ArrayBuffer msg_tcp_web));
          (sends_ok, Message (ArrayBuffer http_get));
          (sends_ok, FetchRejected 0)])
  = [Send success_response;
     Fetch 0 (lit "http://10.0.0.1:80")
       {| method := lit "GET"; headers := []; body := Some [] |};
     Send bad_gateway] /\
  snd (fst (step sends_ok handleVLESSProtocol (Message (ArrayBuffer msg_tcp_web))))
  = [Send success_response] /\
  is_pending 0 relay_web_pending = true /\
  snd (fst (step sends_ok relay_web_pending (FetchRejected 0))) = [Send bad_gateway] /\
  existsb is_close
    (snd (run handleVLESSProtocol
            [(sends_ok, Message (ArrayBuffer msg_tcp_web));
             (sends_ok, Message (ArrayBuffer http_get));
             (sends_ok, FetchRejected 0)])) = false.
Proof. repeat split; reflexivity. Qed.

(** C1, amended: the handshake handler runs in at most one turn of a
    session and sends the success response at most once, as the first call
    of that turn.  It sends it as soon as the first message carries the
    configured identifier and an address type 1, 2 or 3, without opening
    any upstream connection: no [fetch] is issued in that turn.  When an
    upstream request made later by the relay is rejected, the channel is
    not closed; "HTTP/1.1 502 Bad Gateway" is sent on it. *)
Theorem success_response_precedes_upstream :
  forall (send_throws : bytes -> bool) (s : session) (buffer : bytes)
         (turns : list turn) (id : nat),
    (handshakes s turns <= 1)%nat /\
    (onmessage s = FirstMessage ->
     forall s' calls r,
       step send_throws s (Message (ArrayBuffer buffer)) = (s', calls, r) ->
       forallb (fun c => negb (is_fetch c)) calls = true /\
       pending s' = pending s /\
       (forall pre post, calls = pre ++ Send success_response :: post ->
                         pre = [] /\ ~ In (Send success_response) post) /\
       (slice buffer 0 16 = user_bytes -> parse_address buffer <> None ->
        hd_error calls = Some (Send success_response))) /\
    (is_pending id s = true ->
     step send_throws s (FetchRejected id)
     = (with_pending (remove_id id (pending s)) (next_id s) s,
        [Send bad_gateway], Normal tt)).
Proof.
  intros send_throws s buffer turns id.
  split; [apply handshakes_le_1|]. split; [|apply step_fetch_rejected].
  intros Hs s' calls r Hstep.
  rewrite step_first_message in Hstep by exact Hs.
  destruct (first_message_calls _ _ _ _ _ _ Hstep) as (Hf & Hp & Ho).
  split; [exact Hf | split; [exact Hp | split; [exact Ho|]]].
  intros Hu Ha. rewrite firstMessageHandler_binary in Hstep.
  destruct (find_user_known buffer Hu) as [Hfu _]. rewrite Hfu in Hstep.
  destruct (parse_address buffer) as [[address len]|]; [|congruence].
  cbv zeta in Hstep. revert Hstep.
  split_ifs; intros [= <- <- <-]; reflexivity.
Qed.

(** A handshake for 10.0.0.1:80 and the rejection of the request that
    follows it. *)
Lemma success_response_precedes_upstream_witness :
  hd_error (snd (fst (step sends_ok handleVLESSProtocol
                        (Message (ArrayBuffer msg_tcp_web)))))
  = Some (Send success_response) /\
  step sends_ok relay_web_pending (FetchRejected 0)
  = (with_pending [] 1 relay_web_pending, [Send bad_gateway], Normal tt).
Proof.
  split.
  - destruct (success_response_precedes_upstream sends_ok handleVLESSProtocol
                msg_tcp_web [] 0) as (_ & H & _).
    destruct (H eq_refl _ _ _ eq_refl) as (_ & _ & _ & Hh).
    apply Hh; [reflexivity | vm_compute; discriminate].
  - apply (success_response_precedes_upstream sends_ok relay_web_pending
             msg_tcp_web [] 0). reflexivity.
Defined.

(** ** The bytes after the address field *)

Lemma index_app_l (header payload : bytes) (i : nat) :
  (i < List.length header)%nat -> index (header ++ payload) i = index header i.
Proof. intros H. unfold index. now rewrite nth_error_app1. Qed.

Lemma slice_app_l (header payload : bytes) (start stop : nat) :
  (stop <= List.length header)%nat ->
  slice (header ++ payload) start stop = slice header start stop.
Proof.
  intros H. unfold slice. rewrite skipn_app, firstn_app, length_skipn.
  replace (stop - start - (List.length header - start))%nat with O by lia.
  cbn [firstn]. now rewrite app_nil_r.
Qed.

Lemma parse_address_length (buffer : bytes) (address : text) (len : option N) :
  parse_address buffer = Some (address, len) ->
  len = match index buffer 20 with
        | Some 1 => Some 4
        | Some 2 => option_map (fun l => 1 + l) (index buffer 21)
        | _ => Some 16
        end.
Proof.
  unfold parse_address. destruct (index buffer 20) as [[|p]|]; try discriminate.
  destruct p as [[p|p|]|[p|p|]|]; try discriminate; now intros [= _ <-].
Qed.

(** A first message with a complete header is handled as its header
    alone: nothing after the address field is read. *)
Lemma first_message_tail_unread send_throws (header payload : bytes)
      (address : text) (len : N) (s : session) :
  parse_address header = Some (address, Some len) ->
  List.length header = (21 + N.to_nat len)%nat ->
  firstMessageHandler send_throws (ArrayBuffer (header ++ payload)) s
  = firstMessageHandler send_throws (ArrayBuffer header) s.
Proof.
  intros Ha Hl.
  assert (Hp : parse_address (header ++ payload) = parse_address header).
  { pose proof (parse_address_length _ _ _ Ha) as Hlen.
    unfold parse_address in *.
    rewrite (index_app_l header payload 20) by lia.
    destruct (index header 20) as [[|p]|]; try reflexivity.
    destruct p as [[p|p|]|[p|p|]|]; try reflexivity.
    - injection Hlen as ->. change (N.to_nat 16) with 16%nat in Hl.
      now rewrite (slice_app_l header payload 21 37) by lia.
    - destruct (index header 21) as [l|] eqn:El; [|discriminate Hlen].
      assert (Hlen' : len = 1 + l) by (cbn [option_map] in Hlen; congruence).
      subst len. rewrite N2Nat.inj_add in Hl.
      change (N.to_nat 1) with 1%nat in Hl.
      rewrite (index_app_l header payload 21), El by lia.
      now rewrite (slice_app_l header payload 22) by lia.
    - injection Hlen as ->. change (N.to_nat 4) with 4%nat in Hl.
      now rewrite !(index_app_l header payload) by lia. }
  rewrite !firstMessageHandler_binary. unfold uuid_of, port_of.
  rewrite Hp, (slice_app_l header payload 0 16) by lia.
  now rewrite !(index_app_l header payload) by lia.
Qed.

(** C3, the claim at a first message whose header is followed by "hello":
    the handler computes that the address field is 4 bytes long, so the
    payload starts at offset 25, but the only call it makes is the success
    response; nor do the five bytes appear in any call when the next
    message is relayed. *)
Lemma trailing_payload_is_not_forwarded :
  parse_address msg_tcp_payload = Some (lit "10.0.0.1", Some 4) /\
  skipn 25 msg_tcp_payload = bytes_of [104; 101; 108; 108; 111] /\
  step sends_ok handleVLESSProtocol (Message (ArrayBuffer msg_tcp_payload))
  = (relay_plain, [Send success_response], Normal tt) /\
  snd (run handleVLESSProtocol
         [(sends_ok, Message (ArrayBuffer msg_tcp_payload));
          (sends_ok, Message (ArrayBuffer raw_chunk))])
  = [Send success_response; Send raw_chunk].
Proof. repeat split; reflexivity. Qed.

Lemma parse_address_tail (header payload : bytes) (address : text) (len : N) :
  parse_address header = Some (address, Some len) ->
  List.length header = (21 + N.to_nat len)%nat ->
  parse_address (header ++ payload) = parse_address header.
Proof.
  intros Ha Hl. pose proof (parse_address_length _ _ _ Ha) as Hlen.
  unfold parse_address in *.
  rewrite (index_app_l header payload 20) by lia.
  destruct (index header 20) as [[|p]|]; try reflexivity.
  destruct p as [[p|p|]|[p|p|]|]; try reflexivity.
  - injection Hlen as ->. change (N.to_nat 16) with 16%nat in Hl.
    now rewrite (slice_app_l header payload 21 37) by lia.
  - destruct (index header 21) as [l|] eqn:El; [|discriminate Hlen].
    assert (Hlen' : len = 1 + l) by (cbn [option_map] in Hlen; congruence).
    subst len. rewrite N2Nat.inj_add in Hl.
    change (N.to_nat 1) with 1%nat in Hl.
    rewrite (index_app_l header payload 21), El by lia.
    now rewrite (slice_app_l header payload 22) by lia.
  - injection Hlen as ->. change (N.to_nat 4) with 4%nat in Hl.
    now rewrite !(index_app_l header payload) by lia.
Qed.

(** C3, the code against the claim: payload bytes that follow the
    handshake header in the first message are discarded.  For every header
    of the configured user with a complete address field of [len] bytes and
    every [payload] behind it, the handler works out the address length, so
    that the payload starts at offset 21 + [len], and the handshake
    succeeds - the success response is its first call - but the length is
    never read again: the whole run, state and calls, this turn and all
    later ones, is the run in which the first message is the header alone.
    The same bytes are not lost when they come in a message of their own:
    after a TCP handshake the relay handles them (it sends them back,
    unless they are an HTTP request for a destination that looks like the
    web). *)
Theorem trailing_payload_is_dropped :
  forall (send_throws send_throws' : bytes -> bool) (header payload : bytes)
         (address : text) (len : N) (s : session) (turns : list turn),
    onmessage s = FirstMessage ->
    slice header 0 16 = user_bytes ->
    parse_address header = Some (address, Some len) ->
    List.length header = (21 + N.to_nat len)%nat ->
    parse_address (header ++ payload) = Some (address, Some len) /\
    skipn (21 + N.to_nat len) (header ++ payload) = payload /\
    hd_error (snd (fst (step send_throws s
                          (Message (ArrayBuffer (header ++ payload))))))
    = Some (Send success_response) /\
    run s ((send_throws, Message (ArrayBuffer (header ++ payload))) :: turns)
    = run s ((send_throws, Message (ArrayBuffer header)) :: turns) /\
    (send_throws success_response = false ->
     index header 17 <> Some 2 ->
     (looks_like_web address (port_of header)
      && is_http_request (TextDecoder_decode payload))%bool = false ->
     snd (run s [(send_throws, Message (ArrayBuffer header));
                 (send_throws', Message (ArrayBuffer payload))])
     = [Send success_response; Send payload]).
Proof.
  intros send_throws send_throws' header payload address len s turns
         Hs Hu Ha Hl.
  assert (Hstep : step send_throws s (Message (ArrayBuffer (header ++ payload)))
                  = step send_throws s (Message (ArrayBuffer header))).
  { rewrite !step_first_message by exact Hs.
    apply (first_message_tail_unread _ _ _ address len); assumption. }
  destruct (find_user_known header Hu) as [Hfu _].
  split; [|split; [|split; [|split]]].
  - rewrite (parse_address_tail header payload address len) by assumption.
    exact Ha.
  - rewrite <- Hl, skipn_app, skipn_all, Nat.sub_diag. reflexivity.
  - rewrite Hstep, step_first_message by exact Hs.
    rewrite firstMessageHandler_binary, Hfu, Ha. cbv zeta.
    split_ifs; reflexivity.
  - cbn [run]. rewrite Hstep. reflexivity.
  - intros Ht Hc Hw. cbn [run].
    rewrite step_first_message by exact Hs.
    rewrite firstMessageHandler_binary, Hfu, Ha. cbv zeta.
    rewrite Ht, (is_udp_command_false _ Hc).
    rewrite (step_relay _ address (port_of header)) by reflexivity.
    rewrite messageHandler_binary. cbv zeta. rewrite Hw. reflexivity.
Qed.

(** The first message that carries "hello" after its header, and "hello"
    in a message of its own. *)
Lemma trailing_payload_is_dropped_witness :
  parse_address msg_tcp_payload = Some (lit "10.0.0.1", Some 4) /\
  skipn 25 msg_tcp_payload = bytes_of [104; 101; 108; 108; 111] /\
  hd_error (snd (fst (step sends_ok handleVLESSProtocol
                        (Message (ArrayBuffer msg_tcp_payload)))))
  = Some (Send success_response) /\
  run handleVLESSProtocol
      [(sends_ok, Message (ArrayBuffer msg_tcp_payload));
       (sends_ok, Message (ArrayBuffer raw_chunk))]
  = run handleVLESSProtocol
        [(sends_ok, Message (ArrayBuffer msg_tcp_plain));
         (sends_ok, Message (ArrayBuffer raw_chunk))] /\
  snd (run handleVLESSProtocol
         [(sends_ok, Message (ArrayBuffer msg_tcp_plain));
          (sends_ok, Message (ArrayBuffer (bytes_of [104; 101; 108; 108; 111])))])
  = [Send success_response; Send (bytes_of [104; 101; 108; 108; 111])].
Proof.
  destruct (trailing_payload_is_dropped sends_ok sends_ok msg_tcp_plain
              (bytes_of [104; 101; 108; 108; 111]) (lit "10.0.0.1") 4
              handleVLESSProtocol
              [(sends_ok, Message (ArrayBuffer raw_chunk))])
    as (H1 & H2 & H3 & H4 & H5); [reflexivity | reflexivity | reflexivity
                                 | reflexivity |].
  split; [exact H1|]. split; [exact H2|]. split; [exact H3|].
  split; [exact H4|].
  apply H5; [reflexivity | vm_compute; discriminate | reflexivity].
Defined.

(** ** No exception escapes a turn *)

(** X21: no exception escapes a turn: whatever the state, the event
    delivered and the sends that raise, the handler that runs completes
    normally, which is why [run] need not look at the completion. *)
Lemma step_completes send_throws s i :
  snd (step send_throws s i) = Normal tt.
Proof.
  destruct i as [d|id responseBody|id].
  - destruct (onmessage s) as [|host port|] eqn:E.
    + rewrite step_first_message by exact E. destruct d as [buffer|t].
      * rewrite firstMessageHandler_binary.
        destruct (find_user _ _); [|reflexivity].
        destruct (parse_address buffer) as [[address len]|]; [|reflexivity].
        cbv zeta. split_ifs; reflexivity.
      * reflexivity.
    + destruct d as [payload|t].
      * rewrite (step_relay _ host port) by exact E.
        rewrite messageHandler_binary. cbv zeta. split_ifs; reflexivity.
      * cbn [step]. rewrite E. reflexivity.
    + cbn [step]. rewrite E. reflexivity.
  - destruct (is_pending id s) eqn:E.
    + now rewrite step_fetch_fulfilled.
    + cbn [step]. now rewrite E.
  - destruct (is_pending id s) eqn:E.
    + now rewrite step_fetch_rejected.
    + cbn [step]. now rewrite E.
Qed.

(** ** Hexadecimal text and back *)

Lemma concat_empty_cons (x : string) (xs : list string) :
  String.concat "" (x :: xs) = (x ++ String.concat "" xs)%string.
Proof.
  destruct xs as [|y ys]; cbn [String.concat].
  - induction x as [|c x IH]; cbn; [reflexivity | now rewrite <- IH].
  - reflexivity.
Qed.

Lemma lit_app (s1 s2 : string) : lit (s1 ++ s2)%string = lit s1 ++ lit s2.
Proof.
  unfold lit. induction s1 as [|c s1 IH]; cbn; [reflexivity|].
  now rewrite IH.
Qed.

Lemma lit_length (s : string) : List.length (lit s) = String.length s.
Proof.
  unfold lit. induction s as [|c s IH]; cbn; [reflexivity | now rewrite IH].
Qed.

Lemma arrayBufferToHexString_cons (b : byte) (buffer : bytes) :
  arrayBufferToHexString (b :: buffer)
  = (hex2 b ++ arrayBufferToHexString buffer)%string.
Proof. unfold arrayBufferToHexString. cbn [map]. apply concat_empty_cons. Qed.

Lemma hex2_parse (b : byte) : toUint8 (parseInt16 (lit (hex2 b))) = b.
Proof. destruct b; reflexivity. Qed.

Lemma hex2_lit (b : byte) :
  exists c1 c2, lit (hex2 b) = [c1; c2].
Proof. rewrite hex2_digits. cbn. eauto. Qed.

(** X1: bytes written as hexadecimal text are read back unchanged. *)
Theorem hex_text_round_trip :
  forall buffer : bytes,
    hexStringToArrayBuffer (lit (arrayBufferToHexString buffer)) = buffer.
Proof.
  induction buffer as [|b buffer IH]; [reflexivity|].
  rewrite arrayBufferToHexString_cons, lit_app.
  pose proof (hex2_parse b) as Hb.
  destruct (hex2_lit b) as (c1 & c2 & E). rewrite E in *.
  cbn [app hexStringToArrayBuffer]. now rewrite Hb, IH.
Qed.

Lemma String_length_app (s1 s2 : string) :
  String.length (s1 ++ s2)%string = (String.length s1 + String.length s2)%nat.
Proof. induction s1 as [|c s1 IH]; cbn; [reflexivity | now rewrite IH]. Qed.

Lemma string_forall_app p s1 s2 :
  string_forall p (s1 ++ s2)%string
  = (string_forall p s1 && string_forall p s2)%bool.
Proof.
  induction s1 as [|c s1 IH]; cbn; [reflexivity|]. now rewrite IH, andb_assoc.
Qed.

Lemma hex2_shape (b : byte) :
  String.length (hex2 b) = 2%nat /\ string_forall is_lower_hex (hex2 b) = true.
Proof. destruct b; split; reflexivity. Qed.

(** X2: the hexadecimal text of a buffer has exactly two characters per
    byte, each one of [0-9a-f]. *)
Theorem hex_text_shape :
  forall buffer : bytes,
    String.length (arrayBufferToHexString buffer) = (2 * List.length buffer)%nat /\
    string_forall is_lower_hex (arrayBufferToHexString buffer) = true.
Proof.
  induction buffer as [|b buffer [IHl IHf]]; [split; reflexivity|].
  rewrite arrayBufferToHexString_cons, String_length_app, string_forall_app.
  destruct (hex2_shape b) as [Hl Hf]. rewrite Hl, Hf, IHl, IHf.
  split; [cbn [List.length]; lia | reflexivity].
Qed.

Lemma hex_digit_cases (c : N) :
  is_hex_digit c = true ->
  In c [48; 49; 50; 51; 52; 53; 54; 55; 56; 57; 65; 66; 67; 68; 69; 70;
        97; 98; 99; 100; 101; 102].
Proof.
  unfold is_hex_digit, hex_value, between. intros H.
  assert (Hr : 48 <= c <= 57 \/ 65 <= c <= 70 \/ 97 <= c <= 102).
  { destruct (N.leb_spec 48 c), (N.leb_spec c 57), (N.leb_spec 97 c),
      (N.leb_spec c 102), (N.leb_spec 65 c), (N.leb_spec c 70);
      cbn in H; try discriminate H; lia. }
  cbn [In]. lia.
Qed.

Lemma hex_pair_text (a b : N) :
  is_hex_digit a = true -> is_hex_digit b = true ->
  lit (hex2 (toUint8 (parseInt16 [a; b]))) = [lower_hex_unit a; lower_hex_unit b].
Proof.
  intros Ha Hb.
  apply hex_digit_cases in Ha. apply hex_digit_cases in Hb. cbn [In] in Ha, Hb.
  repeat (destruct Ha as [<-|Ha]; [|]); try contradiction;
    repeat (destruct Hb as [<-|Hb]; [|]); try contradiction; reflexivity.
Qed.

(** Induction two elements at a time. *)
Lemma pair_induction {A} (P : list A -> Prop) :
  P [] -> (forall a, P [a]) -> (forall a b l, P l -> P (a :: b :: l)) ->
  forall l, P l.
Proof.
  intros H0 H1 H2.
  assert (H : forall l, P l /\ forall a, P (a :: l)).
  { induction l as [|x l [IH1 IH2]]; split; auto. }
  intros l. apply H.
Qed.

(** X3: reading hexadecimal text and writing the bytes back gives the same
    text in lower case, for every text of an even number of hexadecimal
    digits. *)
Theorem hex_text_round_trip_back :
  forall hexString : jsstring,
    Nat.even (List.length hexString) = true ->
    forallb is_hex_digit hexString = true ->
    lit (arrayBufferToHexString (hexStringToArrayBuffer hexString))
    = map lower_hex_unit hexString.
Proof.
  induction hexString as [|a|a b rest IH] using pair_induction; intros He Hd.
  - reflexivity.
  - discriminate He.
  - cbn [forallb] in Hd. apply andb_prop in Hd as [Ha Hd].
    apply andb_prop in Hd as [Hb Hd].
    cbn [hexStringToArrayBuffer map].
    rewrite arrayBufferToHexString_cons, lit_app, (hex_pair_text a b Ha Hb).
    cbn [app]. now rewrite IH.
Qed.

Lemma hex_text_round_trip_back_witness :
  lit (arrayBufferToHexString (hexStringToArrayBuffer (lit "0aFFc3")))
  = lit "0affc3".
Proof.
  apply (hex_text_round_trip_back (lit "0aFFc3")); reflexivity.
Defined.



Lemma hi_digit_is_hex (b : byte) : is_hex_digit (N_of_ascii (hi_digit b)) = true.
Proof. destruct b; reflexivity. Qed.

Lemma lo_digit_is_hex (b : byte) : is_hex_digit (N_of_ascii (lo_digit b)) = true.
Proof. destruct b; reflexivity. Qed.

Lemma substring_0_0 (s : string) : String.substring 0 0 s = EmptyString.
Proof. destruct s; reflexivity. Qed.

Ltac uuid_text :=
  rewrite ?arrayBufferToHexString_cons, ?hex2_digits;
  unfold formatUUID, substr, lit;
  cbn [arrayBufferToHexString map String.concat String.append String.substring
       list_ascii_of_string];
  rewrite ?substring_0_0;
  cbn [map list_ascii_of_string];
  change (N_of_ascii "-"%char) with 45%N;
  unfold validateUUID;
  repeat (progress
            (cbn [hex_run hyphen and_then];
             rewrite ?hi_digit_is_hex, ?lo_digit_is_hex;
             change (is_hex_digit 45) with false)).

Lemma validateUUID_identifier (buffer : bytes) :
  validateUUID (lit (formatUUID (arrayBufferToHexString buffer)))
  = (16 <=? List.length buffer)%nat.
Proof.
  do 16 (destruct buffer as [|? buffer]; [uuid_text; reflexivity|]).
  uuid_text. reflexivity.
Qed.

(** X5: the identifier text derived from a buffer is a well-formed UUID
    exactly when the buffer has at least sixteen bytes. *)
Theorem identifier_text_is_uuid :
  forall buffer : bytes,
    validateUUID (lit (formatUUID (arrayBufferToHexString buffer)))
    = (16 <=? List.length buffer)%nat.
Proof. exact validateUUID_identifier. Qed.

Lemma upper_hex_cases (c : N) :
  between 65 70 c = true ->
  c = 65 \/ c = 66 \/ c = 67 \/ c = 68 \/ c = 69 \/ c = 70.
Proof.
  unfold between. intros H. apply andb_prop in H as [H1 H2].
  apply N.leb_le in H1, H2. lia.
Qed.

Lemma lower_hex_unit_is_hex (c : N) :
  is_hex_digit (lower_hex_unit c) = is_hex_digit c.
Proof.
  unfold lower_hex_unit. destruct (between 65 70 c) eqn:E; [|reflexivity].
  apply upper_hex_cases in E.
  repeat (destruct E as [->|E]); try subst c; reflexivity.
Qed.

Lemma hex_run_lower (n : nat) (s : jsstring) :
  hex_run n (map lower_hex_unit s) = option_map (map lower_hex_unit) (hex_run n s).
Proof.
  revert s. induction n as [|n IH]; intros s; [reflexivity|].
  destruct s as [|c s]; [reflexivity|]. cbn [map hex_run].
  rewrite lower_hex_unit_is_hex. destruct (is_hex_digit c); [apply IH | reflexivity].
Qed.

Lemma hyphen_spec (s : jsstring) :
  hyphen s = match s with
             | c :: r => if N.eqb c 45 then Some r else None
             | [] => None
             end.
Proof.
  destruct s as [|c r]; [reflexivity|]. unfold hyphen.
  destruct (N.eqb_spec c 45) as [->|Hc]; [reflexivity|].
  destruct c as [|p]; [reflexivity|].
  repeat (destruct p as [p|p|]; try reflexivity). congruence.
Qed.

Lemma hyphen_lower (s : jsstring) :
  hyphen (map lower_hex_unit s) = option_map (map lower_hex_unit) (hyphen s).
Proof.
  rewrite !hyphen_spec. destruct s as [|c s]; [reflexivity|]. cbn [map].
  unfold lower_hex_unit. destruct (between 65 70 c) eqn:E.
  - apply upper_hex_cases in E.
    repeat (destruct E as [->|E]); try subst c; reflexivity.
  - destruct (N.eqb c 45); reflexivity.
Qed.

Lemma and_then_lower (f : jsstring -> option jsstring) (o : option jsstring) :
  (forall s, f (map lower_hex_unit s) = option_map (map lower_hex_unit) (f s)) ->
  and_then (option_map (map lower_hex_unit) o) f
  = option_map (map lower_hex_unit) (and_then o f).
Proof. intros Hf. destruct o as [s|]; [apply Hf | reflexivity]. Qed.

Lemma hex_run_length (n : nat) (s r : jsstring) :
  hex_run n s = Some r -> List.length s = (n + List.length r)%nat.
Proof.
  revert s. induction n as [|n IH]; intros s H.
  - now injection H as ->.
  - destruct s as [|c s]; [discriminate H|]. cbn [hex_run] in H.
    destruct (is_hex_digit c); [|discriminate H].
    cbn [List.length]. rewrite (IH s H). lia.
Qed.

Lemma hyphen_length (s r : jsstring) :
  hyphen s = Some r -> List.length s = S (List.length r).
Proof.
  rewrite hyphen_spec. destruct s as [|c s]; [discriminate|].
  destruct (N.eqb c 45); [now intros [= ->] | discriminate].
Qed.

(** X6: [validateUUID] accepts only texts of 36 characters, and whether it
    accepts a text does not depend on the case of the letters A to F. *)
Theorem validateUUID_length_and_case :
  forall uuid : jsstring,
    (validateUUID uuid = true -> List.length uuid = 36%nat) /\
    validateUUID (map lower_hex_unit uuid) = validateUUID uuid.
Proof.
  intros uuid. split.
  - unfold validateUUID.
    destruct (hex_run 8 uuid) as [s1|] eqn:E1; cbn [and_then]; [|discriminate].
    destruct (hyphen s1) as [s2|] eqn:E2; cbn [and_then]; [|discriminate].
    destruct (hex_run 4 s2) as [s3|] eqn:E3; cbn [and_then]; [|discriminate].
    destruct (hyphen s3) as [s4|] eqn:E4; cbn [and_then]; [|discriminate].
    destruct (hex_run 4 s4) as [s5|] eqn:E5; cbn [and_then]; [|discriminate].
    destruct (hyphen s5) as [s6|] eqn:E6; cbn [and_then]; [|discriminate].
    destruct (hex_run 4 s6) as [s7|] eqn:E7; cbn [and_then]; [|discriminate].
    destruct (hyphen s7) as [s8|] eqn:E8; cbn [and_then]; [|discriminate].
    destruct (hex_run 12 s8) as [[|c s9]|] eqn:E9; cbn [and_then]; try discriminate.
    intros _.
    apply hex_run_length in E1, E3, E5, E7, E9.
    apply hyphen_length in E2, E4, E6, E8. cbn [List.length] in E9. lia.
  - unfold validateUUID.
    rewrite hex_run_lower.
    repeat (rewrite and_then_lower by (intros; first [apply hyphen_lower | apply hex_run_lower])).
    destruct (and_then _ _) as [[|c r]|]; reflexivity.
Qed.

Lemma validateUUID_length_and_case_witness :
  List.length (lit "62A9ADEF-40b2-477a-861f-ce1e8604bc34") = 36%nat.
Proof.
  apply (validateUUID_length_and_case (lit "62A9ADEF-40b2-477a-861f-ce1e8604bc34")).
  reflexivity.
Defined.

(** ** The session after the handshake *)

(** ** The destination port *)

Lemma to_N_u8 (n : N) : n < 256 -> Byte.to_N (u8 n) = n.
Proof.
  intros H. unfold u8. rewrite N.mod_small by exact H.
  destruct (Byte.of_N n) as [b|] eqn:E.
  - now apply Byte.to_of_N.
  - apply Byte.of_N_None_iff in E. lia.
Qed.

Lemma to_N_lt (b : byte) : Byte.to_N b < 256.
Proof. pose proof (Byte.to_N_bounded b). lia. Qed.

Lemma lor_shiftl_byte (a : N) (b : byte) :
  N.lor (N.shiftl a 8) (Byte.to_N b) = 256 * a + Byte.to_N b.
Proof. destruct a as [|p]; destruct b; reflexivity. Qed.

Lemma toInt32_index_lt (buffer : bytes) (i : nat) : toInt32 (index buffer i) < 256.
Proof.
  unfold index. destruct (nth_error buffer i) as [b|]; cbn; [apply to_N_lt | lia].
Qed.

Lemma port_of_value (buffer : bytes) :
  port_of buffer
  = 256 * toInt32 (index buffer 18) + toInt32 (index buffer 19)
  /\ port_of buffer < 65536.
Proof.
  pose proof (toInt32_index_lt buffer 18) as H18.
  pose proof (toInt32_index_lt buffer 19) as H19.
  assert (E : port_of buffer
              = 256 * toInt32 (index buffer 18) + toInt32 (index buffer 19)).
  { unfold port_of, index in *.
    destruct (nth_error buffer 19) as [b|]; cbn [option_map toInt32].
    - apply lor_shiftl_byte.
    - rewrite N.lor_0_r, N.shiftl_mul_pow2. change (2 ^ 8) with 256. lia. }
  split; [exact E | lia].
Qed.

(** The variables [handleVLESSProtocol] holds after an accepted first
    message, whatever the command and whether or not a send raises. *)
Lemma handshake_variables send_throws buffer s address len :
  onmessage s = FirstMessage ->
  slice buffer 0 16 = user_bytes ->
  parse_address buffer = Some (address, len) ->
  let s' := fst (fst (step send_throws s (Message (ArrayBuffer buffer)))) in
  userId s' = Some "62a9adef-40b2-477a-861f-ce1e8604bc34" /\
  targetHost s' = Some address /\
  targetPort s' = Some (port_of buffer) /\
  isUDP s' = is_udp_command (index buffer 17).
Proof.
  intros Hs Hu Ha. cbv zeta.
  rewrite step_first_message by exact Hs.
  rewrite firstMessageHandler_binary.
  destruct (find_user_known buffer Hu) as [-> ->]. rewrite Ha. cbv zeta.
  split_ifs; repeat split; reflexivity.
Qed.

(** X7: the destination port is the big-endian 16-bit number of bytes 18
    and 19 of the first message, a missing byte counting as 0; it never
    exceeds 65535. *)
Theorem destination_port_is_16_bit :
  forall (send_throws : bytes -> bool) (buffer : bytes) (p : N),
    targetPort (fst (fst (step send_throws handleVLESSProtocol
                               (Message (ArrayBuffer buffer))))) = Some p ->
    p = 256 * toInt32 (index buffer 18) + toInt32 (index buffer 19)
    /\ p < 65536.
Proof.
  intros send_throws buffer p.
  rewrite step_first_message by reflexivity.
  rewrite firstMessageHandler_binary.
  destruct (find_user _ _); [|discriminate].
  destruct (parse_address buffer) as [[address len]|]; [|discriminate].
  cbv zeta. intros H.
  assert (E : p = port_of buffer) by (revert H; split_ifs; cbn; congruence).
  subst p. apply port_of_value.
Qed.

Lemma destination_port_is_16_bit_witness :
  443 = 256 * toInt32 (index msg_tcp_ipv6 18) + toInt32 (index msg_tcp_ipv6 19)
  /\ 443 < 65536.
Proof.
  apply (destination_port_is_16_bit sends_ok msg_tcp_ipv6 443). reflexivity.
Defined.

(** ** Building a first message and reading it back *)

Lemma first_message_index (id : bytes) (command port : N) (address payload : list N)
      (j : nat) :
  List.length id = 16%nat -> (16 <= j)%nat ->
  index (first_message id command port address payload) j
  = index (bytes_of ([0; command; port / 256; port mod 256] ++ address ++ payload))
          (j - 16).
Proof.
  intros Hl Hj. unfold first_message, index.
  rewrite nth_error_app2 by lia. now rewrite Hl.
Qed.

Lemma first_message_port (id : bytes) (command port : N) (address payload : list N) :
  List.length id = 16%nat -> port < 65536 ->
  port_of (first_message id command port address payload) = port.
Proof.
  intros Hl Hp.
  destruct (port_of_value (first_message id command port address payload)) as [-> _].
  rewrite !first_message_index by (try exact Hl; lia).
  unfold index. cbn [Nat.sub bytes_of map app nth_error option_map toInt32].
  rewrite !to_N_u8.
  - pose proof (N.div_mod port 256). lia.
  - apply N.mod_lt. lia.
  - apply N.Div0.div_lt_upper_bound. lia.
Qed.

Lemma first_message_slice_id (id : bytes) (command port : N) (address payload : list N) :
  List.length id = 16%nat ->
  slice (first_message id command port address payload) 0 16 = id.
Proof.
  intros Hl. unfold first_message. rewrite slice_0, firstn_app, Hl.
  change (16 - 16)%nat with 0%nat. rewrite firstn_O, app_nil_r, <- Hl.
  apply firstn_all.
Qed.

Lemma first_message_skipn (id : bytes) (command port : N) (address payload : list N) :
  List.length id = 16%nat ->
  skipn 20 (first_message id command port address payload)
  = bytes_of (address ++ payload).
Proof.
  intros Hl. unfold first_message. rewrite skipn_app, Hl.
  rewrite skipn_all2 by lia. reflexivity.
Qed.

(** X8: an IPv4 destination written into a first message is read back as
    its dotted-decimal text, with the port, whatever the command byte and
    whatever follows the address. *)
Theorem ipv4_destination_round_trip :
  forall (send_throws : bytes -> bool) (command port a b c d : N) (payload : list N),
    port < 65536 -> a < 256 -> b < 256 -> c < 256 -> d < 256 ->
    let s' := fst (fst (step send_throws handleVLESSProtocol
                          (Message (ArrayBuffer
                             (first_message user_bytes command port
                                            [1; a; b; c; d] payload))))) in
    targetHost s'
    = Some (lit (decimal a ++ "." ++ decimal b ++ "." ++ decimal c ++ "."
                 ++ decimal d)%string) /\
    targetPort s' = Some port.
Proof.
  intros send_throws command port a b c d payload Hp Ha Hb Hc Hd.
  set (buffer := first_message user_bytes command port [1; a; b; c; d] payload).
  assert (Hparse : parse_address buffer
                   = Some (lit (decimal a ++ "." ++ decimal b ++ "." ++ decimal c
                                ++ "." ++ decimal d)%string, Some 4)).
  { unfold parse_address, buffer.
    rewrite !first_message_index by (try reflexivity; lia).
    unfold index.
    cbn [Nat.sub bytes_of map app nth_error option_map].
    rewrite !to_N_u8 by (try assumption; lia). reflexivity. }
  destruct (handshake_variables send_throws buffer handleVLESSProtocol _ _
              eq_refl (first_message_slice_id user_bytes _ _ _ _ eq_refl) Hparse)
    as (_ & Hh & Hport & _).
  cbv zeta. split; [exact Hh|].
  rewrite Hport. unfold buffer. now rewrite first_message_port.
Qed.

Lemma ipv4_destination_round_trip_witness :
  let s' := fst (fst (step sends_ok handleVLESSProtocol
                        (Message (ArrayBuffer
                           (first_message user_bytes 1 443
                                          [1; 93; 184; 216; 34] [71; 69; 84]))))) in
  targetHost s' = Some (lit "93.184.216.34") /\ targetPort s' = Some 443.
Proof.
  apply (ipv4_destination_round_trip sends_ok 1 443 93 184 216 34 [71; 69; 84]);
    reflexivity.
Defined.

(** ** Domain names *)

Lemma skip_byte_order_mark (n : N) (t : text) :
  n <> 0xFEFF ->
  match n :: t with
  | 0xFEFF :: t' => t'
  | x => x
  end = n :: t.
Proof.
  intros H. destruct n as [|p]; [reflexivity|].
  repeat (destruct p as [p|p|]; try reflexivity). congruence.
Qed.

Lemma utf8_decode_ascii (l : list N) :
  Forall (fun n => n < 128) l -> utf8_decode None (bytes_of l) = l.
Proof.
  induction 1 as [|n l Hn _ IH]; [reflexivity|].
  cbn [bytes_of map utf8_decode]. rewrite to_N_u8 by lia.
  unfold utf8_lead. destruct (N.leb_spec n 0x7F); [|lia].
  fold (bytes_of l). now rewrite IH.
Qed.

Lemma TextDecoder_decode_ascii (l : list N) :
  Forall (fun n => n < 128) l -> TextDecoder_decode (bytes_of l) = l.
Proof.
  intros H. unfold TextDecoder_decode. rewrite (utf8_decode_ascii l H).
  destruct H as [|n l Hn _]; [reflexivity|].
  apply skip_byte_order_mark. lia.
Qed.

Lemma TextEncoder_encode_ascii (l : list N) :
  Forall (fun n => n < 128) l -> TextEncoder_encode l = bytes_of l.
Proof.
  induction 1 as [|n l Hn _ IH]; [reflexivity|].
  unfold TextEncoder_encode in *. cbn [flat_map bytes_of map].
  unfold utf8_encode_cp at 1. destruct (N.leb_spec n 0x7F); [|lia].
  cbn [app]. now rewrite IH.
Qed.

(** X9: a domain name of ASCII characters written into a first message,
    behind its length byte, is read back as those characters, with the
    port, whatever follows the name in the message. *)
Theorem domain_destination_round_trip :
  forall (send_throws : bytes -> bool) (command port : N) (name payload : list N),
    port < 65536 ->
    (List.length name < 256)%nat ->
    Forall (fun n => n < 128) name ->
    let s' := fst (fst (step send_throws handleVLESSProtocol
                          (Message (ArrayBuffer
                             (first_message user_bytes command port
                                (2 :: N.of_nat (List.length name) :: name)
                                payload))))) in
    targetHost s' = Some name /\ targetPort s' = Some port.
Proof.
  intros send_throws command port name payload Hp Hl Hn.
  set (buffer := first_message user_bytes command port
                   (2 :: N.of_nat (List.length name) :: name) payload).
  assert (Hparse : parse_address buffer
                   = Some (name, Some (1 + N.of_nat (List.length name)))).
  { assert (H20 : index buffer 20 = Some 2).
    { unfold buffer. rewrite first_message_index by (try reflexivity; lia).
      unfold index. cbn [Nat.sub bytes_of map app nth_error option_map].
      now rewrite to_N_u8 by lia. }
    assert (H21 : index buffer 21 = Some (N.of_nat (List.length name))).
    { unfold buffer. rewrite first_message_index by (try reflexivity; lia).
      unfold index. cbn [Nat.sub bytes_of map app nth_error option_map].
      now rewrite to_N_u8 by lia. }
    assert (Hsl : slice buffer 22 (22 + List.length name) = bytes_of name).
    { unfold slice, buffer.
      replace (22 + List.length name - 22)%nat with (List.length name) by lia.
      change 22%nat with (2 + 20)%nat. rewrite <- skipn_skipn.
      rewrite first_message_skipn by reflexivity.
      cbn [app bytes_of map skipn]. rewrite map_app, firstn_app, length_map.
      rewrite Nat.sub_diag, firstn_O, app_nil_r.
      rewrite <- (length_map u8 name) at 1. apply firstn_all. }
    unfold parse_address. rewrite H20, H21, Nat2N.id, Hsl.
    now rewrite TextDecoder_decode_ascii. }
  destruct (handshake_variables send_throws buffer handleVLESSProtocol _ _
              eq_refl (first_message_slice_id user_bytes _ _ _ _ eq_refl) Hparse)
    as (_ & Hh & Hport & _).
  cbv zeta. split; [exact Hh|].
  rewrite Hport. unfold buffer. now rewrite first_message_port.
Qed.

Lemma domain_destination_round_trip_witness :
  let s' := fst (fst (step sends_ok handleVLESSProtocol
                        (Message (ArrayBuffer
                           (first_message user_bytes 1 80
                              (2 :: 11 :: lit "example.com") [71; 69; 84]))))) in
  targetHost s' = Some (lit "example.com") /\ targetPort s' = Some 80.
Proof.
  apply (domain_destination_round_trip sends_ok 1 80 (lit "example.com") [71; 69; 84]).
  - reflexivity.
  - vm_compute. lia.
  - repeat constructor.
Defined.

(** ** The outcome of the handshake turn *)

Lemma parse_address_tag (buffer : bytes) :
  (exists r, parse_address buffer = Some r /\
             In (index buffer 20) [Some 1; Some 2; Some 3])
  \/ (parse_address buffer = None /\
      ~ In (index buffer 20) [Some 1; Some 2; Some 3]).
Proof.
  unfold parse_address.
  destruct (index buffer 20) as [[|p]|].
  - right. split; [reflexivity|]. cbn. intuition discriminate.
  - destruct p as [[p|p|]|[p|p|]|];
      try (right; split; [reflexivity|]; cbn; intuition discriminate);
      left; eexists; (split; [reflexivity|]); cbn; auto.
  - right. split; [reflexivity|]. cbn. intuition discriminate.
Qed.

(** X10: the handshake turn either closes the channel with code 1008 as its
    only call, or makes the success response its first call; and it sends
    the success response exactly when the first message is binary, starts
    with the configured identifier and has 1, 2 or 3 at offset 20.  The
    address bytes behind the type are never counted: a missing or
    shortened address does not fail the handshake. *)
Theorem handshake_outcome :
  forall (send_throws : bytes -> bool) (d : data) (s : session),
    onmessage s = FirstMessage ->
    let calls := snd (fst (step send_throws s (Message d))) in
    (hd_error calls = Some (Send success_response) <->
     exists buffer,
       d = ArrayBuffer buffer /\ slice buffer 0 16 = user_bytes /\
       In (index buffer 20) [Some 1; Some 2; Some 3]) /\
    (hd_error calls = Some (Send success_response) \/
     exists reason,
       calls = [Close 1008 reason] /\
       In reason ["Invalid data format"; "Invalid user"; "Invalid address type"]).
Proof.
  intros send_throws d s Hs. cbv zeta.
  rewrite step_first_message by exact Hs.
  destruct d as [buffer|t].
  - rewrite firstMessageHandler_binary.
    destruct (bytes_eq_dec (slice buffer 0 16) user_bytes) as [Hu|Hu].
    + destruct (find_user_known buffer Hu) as [-> _].
      destruct (parse_address_tag buffer) as [([address len] & -> & Ht)|[-> Ht]].
      * cbv zeta. split.
        -- split; [intros _; now exists buffer|].
           intros _. split_ifs; reflexivity.
        -- left. split_ifs; reflexivity.
      * cbn [fst snd hd_error]. split.
        -- split; [discriminate|]. intros (b & [= <-] & _ & Hin). contradiction.
        -- right. exists "Invalid address type". cbn. auto.
    + rewrite (find_user_unknown buffer Hu). cbn [fst snd hd_error]. split.
      * split; [discriminate|]. intros (b & [= <-] & Hb & _). contradiction.
      * right. exists "Invalid user". cbn. auto.
  - cbn. split.
    + split; [discriminate|]. intros (b & Hb & _). discriminate Hb.
    + right. exists "Invalid data format". cbn. auto.
Qed.

Lemma handshake_outcome_witness :
  hd_error (snd (fst (step sends_ok handleVLESSProtocol
                        (Message (ArrayBuffer
                           (first_message user_bytes 1 443 [1; 93; 184] []))))))
  = Some (Send success_response).
Proof.
  apply (handshake_outcome sends_ok
           (ArrayBuffer (first_message user_bytes 1 443 [1; 93; 184] []))
           handleVLESSProtocol eq_refl).
  exists (first_message user_bytes 1 443 [1; 93; 184] []).
  split; [reflexivity|]. split; [reflexivity|]. cbn. auto.
Defined.

(** ** After the handshake turn *)

Lemma first_message_closed send_throws d s s' calls r :
  onmessage s = NoListener ->
  firstMessageHandler send_throws d s = (s', calls, r) ->
  existsb is_close calls = true ->
  onmessage s' = NoListener /\ pending s' = pending s.
Proof.
  intros Hs. destruct d as [buffer|t].
  - rewrite firstMessageHandler_binary.
    destruct (find_user _ _); [|intros [= <- <- <-] _; now split].
    destruct (parse_address buffer) as [[address len]|];
      [|intros [= <- <- <-] _; now split].
    cbv zeta. split_ifs; intros [= <- <- <-] Hc; try discriminate Hc; now split.
  - cbn. intros [= <- <- <-] _. now split.
Qed.

(** X11: a handshake turn in which the channel is closed ends the session:
    whatever is delivered afterwards, no further call is made. *)
Theorem closing_handshake_is_final :
  forall (send_throws : bytes -> bool) (d : data) (s : session) (turns : list turn),
    onmessage s = FirstMessage ->
    pending s = [] ->
    existsb is_close (snd (fst (step send_throws s (Message d)))) = true ->
    run s ((send_throws, Message d) :: turns)
    = (fst (fst (step send_throws s (Message d))),
       snd (fst (step send_throws s (Message d)))).
Proof.
  intros send_throws d s turns Hs Hp Hc. cbn [run].
  rewrite step_first_message in * by exact Hs.
  destruct (firstMessageHandler send_throws d (with_onmessage NoListener s))
    as [[s1 c1] r1] eqn:E. cbn [fst snd] in *.
  destruct (first_message_closed send_throws d (with_onmessage NoListener s)
              s1 c1 r1 eq_refl E Hc) as [Hl Hq].
  cbn [pending with_onmessage] in Hq. rewrite Hp in Hq.
  rewrite run_inert by assumption. now rewrite app_nil_r.
Qed.

Lemma closing_handshake_is_final_witness :
  run handleVLESSProtocol
      [(sends_ok, Message (TextData (lit "hello")));
       (sends_ok, Message (ArrayBuffer msg_tcp_web))]
  = (with_onmessage NoListener handleVLESSProtocol,
     [Close 1008 "Invalid data format"]).
Proof.
  apply (closing_handshake_is_final sends_ok (TextData (lit "hello"))
           handleVLESSProtocol [(sends_ok, Message (ArrayBuffer msg_tcp_web))]);
    reflexivity.
Defined.

(** What a turn does once the handshake handler is gone: the state changes
    in its pending requests only. *)
Lemma step_after_handshake send_throws s i :
  onmessage s <> FirstMessage ->
  exists p n, fst (fst (step send_throws s i)) = with_pending p n s.
Proof.
  intros Hs.
  assert (Hid : s = with_pending (pending s) (next_id s) s) by now destruct s.
  destruct i as [d|id responseBody|id].
  - destruct (onmessage s) as [|host port|] eqn:E; [congruence| |].
    + destruct d as [payload|t].
      * rewrite (step_relay _ host port) by exact E.
        rewrite messageHandler_binary. cbv zeta.
        split_ifs; cbn [fst]; eauto.
      * cbn [step]. rewrite E. cbn. eauto.
    + cbn [step]. rewrite E. cbn. eauto.
  - destruct (is_pending id s) eqn:E.
    + rewrite step_fetch_fulfilled by exact E. cbn [fst]. eauto.
    + cbn [step]. rewrite E. cbn. eauto.
  - destruct (is_pending id s) eqn:E.
    + rewrite step_fetch_rejected by exact E. cbn [fst]. eauto.
    + cbn [step]. rewrite E. cbn. eauto.
Qed.

(** X12: once the handshake handler has run, the session's variables -
    user, destination host and port, UDP flag - and its message listener
    never change again, whatever is delivered. *)
Theorem session_variables_are_final :
  forall (s : session) (turns : list turn),
    onmessage s <> FirstMessage ->
    session_variables (fst (run s turns)) = session_variables s.
Proof.
  intros s turns. revert s.
  induction turns as [|[send_throws i] rest IH]; intros s Hs; [reflexivity|].
  cbn [run].
  destruct (step_after_handshake send_throws s i Hs) as (p & n & E).
  destruct (step send_throws s i) as [[s1 c1] r1]. cbn [fst] in E. subst s1.
  specialize (IH (with_pending p n s) Hs).
  destruct (run (with_pending p n s) rest) as [s2 c2]. cbn [fst] in *.
  rewrite IH. reflexivity.
Qed.

Lemma session_variables_are_final_witness :
  session_variables
    (fst (run relay_plain
            [(sends_ok, Message (ArrayBuffer msg_udp));
             (sends_ok, Message (ArrayBuffer http_get))]))
  = session_variables relay_plain.
Proof.
  apply (session_variables_are_final relay_plain
           [(sends_ok, Message (ArrayBuffer msg_udp));
            (sends_ok, Message (ArrayBuffer http_get))]).
  vm_compute. discriminate.
Defined.

(** ** Close codes *)

Lemma step_close_known send_throws s i :
  forallb close_known (snd (fst (step send_throws s i))) = true.
Proof.
  destruct i as [d|id responseBody|id].
  - destruct (onmessage s) as [|host port|] eqn:E.
    + rewrite step_first_message by exact E. destruct d as [buffer|t].
      * rewrite firstMessageHandler_binary.
        destruct (find_user _ _); [|reflexivity].
        destruct (parse_address buffer) as [[address len]|]; [|reflexivity].
        cbv zeta. split_ifs; reflexivity.
      * reflexivity.
    + destruct d as [payload|t].
      * rewrite (step_relay _ host port) by exact E.
        rewrite messageHandler_binary. cbv zeta. split_ifs; reflexivity.
      * cbn [step]. rewrite E. reflexivity.
    + cbn [step]. rewrite E. reflexivity.
  - destruct (is_pending id s) eqn:E.
    + rewrite step_fetch_fulfilled by exact E. cbn [fst snd].
      destruct (send_throws responseBody); reflexivity.
    + cbn [step]. rewrite E. reflexivity.
  - destruct (is_pending id s) eqn:E.
    + rewrite step_fetch_rejected by exact E. reflexivity.
    + cbn [step]. rewrite E. reflexivity.
Qed.

(** X13: in every run, from any state, the channel is only ever closed with
    one of five code and reason pairs: 1008 with 'Invalid user', 'Invalid
    address type' or 'Invalid data format', 1011 with 'Protocol error', and
    1000 with 'CONNECT not fully supported'. *)
Theorem close_codes_are_known :
  forall (s : session) (turns : list turn),
    forallb close_known (snd (run s turns)) = true.
Proof.
  intros s turns. revert s.
  induction turns as [|[send_throws i] rest IH]; intros s; [reflexivity|].
  cbn [run]. pose proof (step_close_known send_throws s i) as H1.
  destruct (step send_throws s i) as [[s1 c1] r1]. cbn [fst snd] in H1.
  specialize (IH s1). destruct (run s1 rest) as [s2 c2]. cbn [snd] in *.
  now rewrite forallb_app, H1, IH.
Qed.

(** ** Destinations that do not look like web servers *)

(** X14: for a TCP destination whose port is neither 80 nor 443 and whose
    host contains none of ".com", ".org", ".net", the session is an echo
    and nothing else: over any run the calls are exactly the binary
    messages received, sent back in order; text messages are ignored, no
    request is made and the channel is never closed. *)
Theorem plain_destination_is_echo :
  forall (host : text) (port : N) (s : session) (turns : list turn),
    onmessage s = RelayTCP host port ->
    looks_like_web host port = false ->
    pending s = [] ->
    run s turns = (s, echo_of turns).
Proof.
  intros host port s turns Hs Hw Hp.
  induction turns as [|[send_throws i] rest IH]; [reflexivity|].
  cbn [run]. destruct i as [[payload|t]|id responseBody|id].
  - rewrite (step_relay _ host port) by exact Hs.
    rewrite messageHandler_binary. cbv zeta. rewrite Hw. cbn [andb].
    rewrite IH. reflexivity.
  - cbn [step]. rewrite Hs. cbn. rewrite IH. reflexivity.
  - cbn [step]. unfold is_pending. rewrite Hp. cbn. rewrite IH. reflexivity.
  - cbn [step]. unfold is_pending. rewrite Hp. cbn. rewrite IH. reflexivity.
Qed.

Lemma plain_destination_is_echo_witness :
  run relay_plain
      [(sends_ok, Message (ArrayBuffer http_get));
       (sends_fail, Message (TextData (lit "x")));
       (sends_fail, Message (ArrayBuffer raw_chunk))]
  = (relay_plain, [Send http_get; Send raw_chunk]).
Proof.
  apply (plain_destination_is_echo (lit "10.0.0.1") 1234 relay_plain
           [(sends_ok, Message (ArrayBuffer http_get));
            (sends_fail, Message (TextData (lit "x")));
            (sends_fail, Message (ArrayBuffer raw_chunk))]);
    reflexivity.
Defined.

(** ** The requests made by the relay *)

Lemma method_of_get (t : text) :
  startsWith (lit "GET ") t = true -> hd [] (split (lit " ") t) = lit "GET".
Proof.
  change (lit "GET ") with [71; 69; 84; 32]. intros H.
  destruct t as [|c1 [|c2 [|c3 [|c4 rest]]]]; cbn [startsWith] in H;
    rewrite ?andb_false_r in H; try discriminate H.
  repeat match goal with
         | H : (_ && _)%bool = true |- _ => apply andb_prop in H; destruct H
         | H : N.eqb _ _ = true |- _ => apply N.eqb_eq in H
         end.
  subst. reflexivity.
Qed.

Lemma method_of_post (t : text) :
  startsWith (lit "POST ") t = true -> hd [] (split (lit " ") t) = lit "POST".
Proof.
  change (lit "POST ") with [80; 79; 83; 84; 32]. intros H.
  destruct t as [|c1 [|c2 [|c3 [|c4 [|c5 rest]]]]]; cbn [startsWith] in H;
    rewrite ?andb_false_r in H; try discriminate H.
  repeat match goal with
         | H : (_ && _)%bool = true |- _ => apply andb_prop in H; destruct H
         | H : N.eqb _ _ = true |- _ => apply N.eqb_eq in H
         end.
  subst. reflexivity.
Qed.

(** X15: every [fetch] the TCP relay issues has method GET or POST and the
    URL http(s)://host:port of the session's destination - the request
    target named in the client's message plays no part - and one is issued
    only for a destination on port 80 or 443 or whose host contains
    ".com", ".org" or ".net". *)
Theorem relay_requests_are_get_or_post :
  forall (send_throws : bytes -> bool) (host : text) (port : N) (s : session)
         (payload : bytes) (id : nat) (url : text) (init : RequestInit),
    onmessage s = RelayTCP host port ->
    In (Fetch id url init)
       (snd (fst (step send_throws s (Message (ArrayBuffer payload))))) ->
    (method init = lit "GET" \/ method init = lit "POST") /\
    url = target_url host port /\
    looks_like_web host port = true /\
    id = next_id s.
Proof.
  intros send_throws host port s payload id url init Hs.
  rewrite (step_relay _ host port) by exact Hs.
  rewrite messageHandler_binary. cbv zeta.
  destruct (looks_like_web host port); cbn [andb].
  2:{ cbn. intros [H|[]]; discriminate H. }
  destruct (is_http_request (TextDecoder_decode payload)) eqn:Eh.
  2:{ cbn. intros [H|[]]; discriminate H. }
  destruct (startsWith (lit "CONNECT ") (TextDecoder_decode payload)) eqn:Ec.
  { cbn [fst snd]. destruct (send_throws connection_established);
      cbn; intros [H|[H|[]]]; discriminate H. }
  cbn [fst snd In]. intros [[= <- <- <-]|[]].
  repeat split.
  unfold is_http_request in Eh. rewrite Ec, orb_false_r in Eh.
  apply orb_prop in Eh as [Eg|Ep].
  - left. now apply method_of_get.
  - right. now apply method_of_post.
Qed.

Lemma relay_requests_are_get_or_post_witness :
  (method {| method := lit "GET"; headers := []; body := Some [] |} = lit "GET"
   \/ method {| method := lit "GET"; headers := []; body := Some [] |} = lit "POST")
  /\ lit "http://10.0.0.1:80" = target_url (lit "10.0.0.1") 80
  /\ looks_like_web (lit "10.0.0.1") 80 = true
  /\ 0%nat = next_id (fst (run handleVLESSProtocol
                             [(sends_ok, Message (ArrayBuffer msg_tcp_web))])).
Proof.
  apply (relay_requests_are_get_or_post sends_ok (lit "10.0.0.1") 80
           (fst (run handleVLESSProtocol
                   [(sends_ok, Message (ArrayBuffer msg_tcp_web))]))
           http_get 0 (lit "http://10.0.0.1:80")
           {| method := lit "GET"; headers := []; body := Some [] |}).
  - reflexivity.
  - left. reflexivity.
Defined.

(** ** The headers of a request *)

Lemma set_property_names (key value : text) (h : list (text * text)) :
  map fst (set_property key value h)
  = if in_dec (list_eq_dec N.eq_dec) key (map fst h)
    then map fst h else map fst h ++ [key].
Proof.
  induction h as [|[k v] h IH]; [reflexivity|].
  cbn [set_property map fst].
  destruct (list_eq_dec N.eq_dec k key) as [->|Hk].
  - cbn [map fst]. destruct (in_dec (list_eq_dec N.eq_dec) key (key :: map fst h)) as [|Hn];
      [reflexivity|]. exfalso. apply Hn. now left.
  - cbn [map fst]. rewrite IH.
    destruct (in_dec (list_eq_dec N.eq_dec) key (map fst h)) as [Hi|Hi];
      destruct (in_dec (list_eq_dec N.eq_dec) key (k :: map fst h)) as [Hj|Hj]; try reflexivity.
    + exfalso. apply Hj. now right.
    + exfalso. destruct Hj as [Hj|Hj]; [congruence | contradiction].
Qed.

Lemma set_property_values (key value : text) (h : list (text * text))
      (P : text * text -> Prop) :
  Forall P h -> (forall k, In k (map fst h) -> k = key -> P (k, value)) ->
  P (key, value) -> Forall P (set_property key value h).
Proof.
  intros Hh Hk Hv. induction h as [|[k v] h IH]; [now repeat constructor|].
  cbn [set_property]. inversion Hh as [|? ? Hkv Hh']; subst.
  destruct (list_eq_dec N.eq_dec k key) as [->|Hne].
  - constructor; assumption.
  - constructor; [assumption|]. apply IH; [assumption|].
    intros k0 Hin. apply Hk. now right.
Qed.

Lemma assign_ok (key value : text) (h : list (text * text)) :
  key <> [] -> value <> [] -> headers_ok h -> headers_ok (assign key value h).
Proof.
  intros Hk Hv [Hd Hf]. unfold assign.
  destruct (list_eq_dec N.eq_dec key (lit "__proto__")) as [E|E]; [now split|].
  split.
  - rewrite set_property_names.
    destruct (in_dec (list_eq_dec N.eq_dec) key (map fst h)) as [Hi|Hi]; [exact Hd|].
    apply NoDup_app; [exact Hd | repeat constructor; intros [] |].
    intros x Hx [<-|[]]. contradiction.
  - apply set_property_values; [exact Hf | | now repeat split].
    intros k _ ->. now repeat split.
Qed.

Lemma parse_headers_ok (lines : list text) (h : list (text * text)) :
  headers_ok h -> headers_ok (parse_headers lines h).
Proof.
  revert h. induction lines as [|line rest IH]; intros h Hh; [exact Hh|].
  cbn [parse_headers]. destruct line as [|c line]; [exact Hh|].
  destruct (split (lit ": ") (c :: line)) as [|key [|value l]]; try now apply IH.
  destruct key as [|k key]; [now apply IH|].
  destruct value as [|v value]; [now apply IH|].
  apply IH. apply assign_ok; [discriminate | discriminate | exact Hh].
Qed.

(** X16: the headers passed to [fetch] have pairwise different names, no
    empty name, no empty value, and never the name [__proto__], whatever
    the client's message. *)
Theorem request_headers_are_well_formed :
  forall t : text,
    NoDup (map fst (headers (requestInit t))) /\
    Forall (fun kv => fst kv <> [] /\ snd kv <> [] /\ fst kv <> lit "__proto__")
           (headers (requestInit t)).
Proof.
  intros t. unfold requestInit. cbn [headers].
  apply parse_headers_ok. split; constructor.
Qed.

(** ** The HTTP side *)

Lemma strict_eq_true (a b : jsstring) : strict_eq a b = true <-> a = b.
Proof.
  unfold strict_eq. destruct (list_eq_dec N.eq_dec a b); split; congruence.
Qed.

Lemma strict_eq_false (a b : jsstring) : strict_eq a b = false <-> a <> b.
Proof.
  unfold strict_eq. destruct (list_eq_dec N.eq_dec a b); split; congruence.
Qed.

Lemma is_latin1_app (a b : jsstring) :
  is_latin1 (a ++ b) = is_latin1 a && is_latin1 b.
Proof. apply forallb_app. Qed.

Lemma hex_digit_latin1 (n : N) : N.leb (N_of_ascii (hex_digit n)) 255 = true.
Proof.
  apply N.leb_le. pose proof (N_ascii_bounded (hex_digit n)). lia.
Qed.

Lemma unicode_escape_latin1 (c : N) : is_latin1 (unicode_escape c) = true.
Proof.
  unfold unicode_escape. cbn [map app is_latin1 forallb].
  rewrite !hex_digit_latin1. reflexivity.
Qed.

Lemma latin1_not_surrogate (c lo : N) :
  N.leb c 255 = true -> 256 <= lo -> forall hi, between lo hi c = false.
Proof.
  intros H Hlo hi. apply N.leb_le in H. unfold between.
  destruct (N.leb lo c) eqn:E; [|reflexivity].
  apply N.leb_le in E. lia.
Qed.

Lemma quote_units_latin1 (s : jsstring) :
  is_latin1 s = true -> is_latin1 (quote_units s) = true.
Proof.
  induction s as [|c s IH]; [reflexivity|].
  cbn [is_latin1 forallb]. intros H. apply andb_prop in H as [Hc Hs].
  specialize (IH Hs). cbn [quote_units].
  rewrite (latin1_not_surrogate c 0xD800 Hc) by lia.
  rewrite (latin1_not_surrogate c 0xDC00 Hc) by lia.
  repeat match goal with
         | |- context [if ?b then _ else _] => destruct b
         end;
    rewrite ?is_latin1_app, ?unicode_escape_latin1, ?IH; try reflexivity;
    unfold is_latin1 in *; cbn [forallb]; rewrite ?Hc, ?IH; reflexivity.
Qed.

Lemma quote_latin1 (s : jsstring) :
  is_latin1 s = true -> is_latin1 (quote s) = true.
Proof.
  intros H. unfold quote. rewrite !is_latin1_app, (quote_units_latin1 s H).
  reflexivity.
Qed.

Lemma base64_char_latin1 (n : N) : N.leb (base64_char n) 255 = true.
Proof.
  apply N.leb_le. unfold base64_char.
  destruct (N.ltb_spec n 26); [lia|].
  destruct (N.ltb_spec n 52); [lia|].
  destruct (N.ltb_spec n 62); [lia|].
  destruct (N.eqb n 62); lia.
Qed.

Lemma base64_latin1 (l : list N) : is_latin1 (base64 l) = true.
Proof.
  assert (H : forall n l, (List.length l < n)%nat -> is_latin1 (base64 l) = true).
  { clear l. induction n as [|n IH]; intros l Hl; [lia|].
    destruct l as [|a [|b [|c rest]]]; cbn [base64 app is_latin1 forallb];
      rewrite ?base64_char_latin1; try reflexivity.
    apply IH. cbn [List.length] in Hl. lia. }
  apply (H (S (List.length l))). lia.
Qed.

Lemma string_or_null_latin1 (host : option jsstring) :
  is_latin1 (template host) = true ->
  is_latin1 (serialize [] [] (string_or_null host)) = true.
Proof.
  destruct host as [h|]; cbn [template string_or_null serialize]; intros H;
    [apply quote_latin1; exact H | reflexivity].
Qed.

Lemma vmess_config_latin1 (uuid : jsstring) (host : option jsstring) :
  is_latin1 uuid = true -> is_latin1 (template host) = true ->
  is_latin1 (JSON_stringify (generateVmessConfig uuid host)) = true.
Proof.
  intros Hu Hh. unfold JSON_stringify, generateVmessConfig.
  cbn [serialize map join app].
  change (serialize [] ([] ++ []) (string_or_null host))
    with (serialize [] [] (string_or_null host)).
  rewrite !is_latin1_app, !string_or_null_latin1 by exact Hh.
  rewrite (quote_latin1 uuid Hu).
  rewrite (quote_latin1 (lit "CF Worker VPN - " ++ template host))
    by (rewrite is_latin1_app, Hh; reflexivity).
  reflexivity.
Qed.

Lemma vmess_link_latin1 (uuid : jsstring) (host : option jsstring) :
  is_latin1 uuid = true -> is_latin1 (template host) = true ->
  exists link,
    vmess_link (generateVmessConfig uuid host) = Normal link
    /\ is_latin1 link = true.
Proof.
  intros Hu Hh. unfold vmess_link, btoa.
  rewrite (vmess_config_latin1 uuid host Hu Hh).
  eexists. split; [reflexivity|].
  rewrite is_latin1_app, base64_latin1. reflexivity.
Qed.

(** X17: whatever the path and the query, the [fetch] handler raises no
    exception when the Host header and the generated identifier hold only
    characters up to 255 (as header values and [crypto.randomUUID()] do):
    both [btoa] calls of the subscription and the one of [/generate] are
    given such text. *)
Theorem fetch_handler_completes :
  forall (htmlPage randomUUID : jsstring) (request : Request),
    is_latin1 (template (header_host request)) = true ->
    is_latin1 randomUUID = true ->
    exists response started,
      worker_fetch htmlPage randomUUID request = Normal (response, started).
Proof.
  intros html u r Hh Hu. unfold worker_fetch.
  destruct (strict_eq (pathname r) (lit "/vless")
            || strict_eq (pathname r) (lit "/vmess"));
    [destruct (handleVLESS r); eauto|].
  destruct (strict_eq (pathname r) (lit "/generate")).
  { destruct (vmess_link_latin1 u (header_host r) Hu Hh) as (link & -> & _).
    eauto. }
  destruct (strict_eq (pathname r) (lit "/sub")).
  { unfold VLESS_USERS. cbn [map_completion uuid].
    destruct (vmess_link_latin1 (lit "62a9adef-40b2-477a-861f-ce1e8604bc34")
                (header_host r) eq_refl Hh) as (link & -> & Hl).
    unfold btoa. cbn [join]. rewrite Hl. eauto. }
  destruct (strict_eq (pathname r) (lit "/")); eauto.
Qed.

Lemma fetch_handler_completes_witness :
  exists response started,
    worker_fetch [] (lit "c0ffee") sample_subscription
    = Normal (response, started).
Proof.
  apply (fetch_handler_completes [] (lit "c0ffee") sample_subscription);
    reflexivity.
Defined.

(** The exception is reachable: a character above 255 in the host reaches
    [btoa]. *)
Example subscription_raises :
  worker_fetch [] [] {| pathname := lit "/sub";
                        header_Upgrade := None;
                        header_host := Some [0x4e2d];
                        param_uuid := None;
                        param_id := None |} = Throw.
Proof. reflexivity. Qed.

Lemma upgrade_condition (v : option jsstring) :
  negb (truthy v) || negb (strict_eq (template v) (lit "websocket")) = false
  <-> v = Some (lit "websocket").
Proof.
  split.
  - intros H. apply orb_false_elim in H as [H1 H2].
    apply negb_false_iff in H1, H2. apply strict_eq_true in H2.
    destruct v as [s|]; [|discriminate]. cbn [template] in H2.
    rewrite H2. reflexivity.
  - intros ->. reflexivity.
Qed.

Lemma handleVLESS_cases (request : Request) :
  (header_Upgrade request = Some (lit "websocket")
   /\ exists response,
       handleVLESS request = (response, Some handleVLESSProtocol)
       /\ status response = 101 /\ webSocket response = true
       /\ response_body response = None)
  \/ (header_Upgrade request <> Some (lit "websocket")
      /\ exists response,
          handleVLESS request = (response, None)
          /\ webSocket response = false
          /\ (status response = 200 \/ status response = 426)).
Proof.
  unfold handleVLESS.
  destruct (negb (truthy (header_Upgrade request))
            || negb (strict_eq (template (header_Upgrade request))
                       (lit "websocket"))) eqn:E.
  - right. split.
    + intros H. apply upgrade_condition in H. congruence.
    + destruct (truthy _ && validateUUID _); eexists;
        (split; [reflexivity|]); cbn; auto.
  - left. apply upgrade_condition in E. split; [exact E|].
    eexists. split; [reflexivity|]. cbn. auto.
Qed.

(** X18: the [fetch] handler starts a VLESS session exactly for the paths
    [/vless] and [/vmess] with an Upgrade header equal to [websocket],
    letter case included; the reply is then 101 with the client socket and
    no body, and the session is in its initial state.  Every other request
    is answered 200 or 426 without a socket, or raises. *)
Theorem session_started_iff :
  forall (htmlPage randomUUID : jsstring) (request : Request),
    let upgrade :=
      (pathname request = lit "/vless" \/ pathname request = lit "/vmess")
      /\ header_Upgrade request = Some (lit "websocket") in
    match worker_fetch htmlPage randomUUID request with
    | Normal (response, Some s) =>
        upgrade /\ s = handleVLESSProtocol /\ status response = 101
        /\ webSocket response = true /\ response_body response = None
    | Normal (response, None) =>
        ~ upgrade /\ webSocket response = false
        /\ (status response = 200 \/ status response = 426)
    | Throw =>
        ~ upgrade
    end.
Proof.
  intros html u r upgrade. subst upgrade. unfold worker_fetch.
  destruct (strict_eq (pathname r) (lit "/vless")) eqn:E1.
  { apply strict_eq_true in E1. cbn [orb].
    destruct (handleVLESS_cases r) as [(Hu & resp & -> & H)|(Hu & resp & -> & H)];
      tauto. }
  destruct (strict_eq (pathname r) (lit "/vmess")) eqn:E2.
  { apply strict_eq_true in E2. cbn [orb].
    destruct (handleVLESS_cases r) as [(Hu & resp & -> & H)|(Hu & resp & -> & H)];
      tauto. }
  apply strict_eq_false in E1, E2. cbn [orb].
  assert (Hn : ~ ((pathname r = lit "/vless" \/ pathname r = lit "/vmess")
                  /\ header_Upgrade r = Some (lit "websocket"))) by tauto.
  destruct (strict_eq (pathname r) (lit "/generate")).
  { destruct (vmess_link _); [cbn; auto | exact Hn]. }
  destruct (strict_eq (pathname r) (lit "/sub")).
  { destruct (map_completion _ _); [|exact Hn].
    destruct (btoa _); [cbn; auto | exact Hn]. }
  destruct (strict_eq (pathname r) (lit "/")); cbn; auto.
Qed.

Lemma or_else_first (a b : option jsstring) :
  truthy a = true -> or_else a b = a.
Proof. unfold or_else. intros ->. reflexivity. Qed.

(** X19: a non-empty [uuid] parameter hides the [id] parameter: the reply
    of [handleVLESS] is the same whatever [id] is, so a request whose
    [uuid] is not well formed is refused even with a well-formed [id]. *)
Theorem uuid_parameter_hides_id :
  forall (request : Request) (id : option jsstring),
    truthy (param_uuid request) = true ->
    handleVLESS (with_param_id id request) = handleVLESS request
    /\ (header_Upgrade request <> Some (lit "websocket") ->
        validateUUID (template (param_uuid request)) = false ->
        handleVLESS (with_param_id id request) = (upgrade_required, None)).
Proof.
  intros r id Ht.
  assert (E : handleVLESS (with_param_id id r) = handleVLESS r).
  { unfold handleVLESS, with_param_id.
    cbn [header_Upgrade param_uuid param_id header_host].
    rewrite !or_else_first by exact Ht. reflexivity. }
  split; [exact E|]. intros Hu Hv. rewrite E. unfold handleVLESS.
  destruct (negb (truthy (header_Upgrade r))
            || negb (strict_eq (template (header_Upgrade r)) (lit "websocket")))
    eqn:Eu.
  - rewrite or_else_first by exact Ht. rewrite Hv, andb_false_r. reflexivity.
  - apply upgrade_condition in Eu. contradiction.
Qed.

Lemma uuid_parameter_hides_id_witness :
  handleVLESS (with_param_id (Some (lit "62a9adef-40b2-477a-861f-ce1e8604bc34"))
                 sample_fallback)
  = handleVLESS sample_fallback
  /\ handleVLESS (with_param_id (Some (lit "62a9adef-40b2-477a-861f-ce1e8604bc34"))
                    sample_fallback)
     = (upgrade_required, None).
Proof.
  destruct (uuid_parameter_hides_id sample_fallback
              (Some (lit "62a9adef-40b2-477a-861f-ce1e8604bc34"))
              eq_refl) as [H1 H2].
  split; [exact H1|]. apply H2; [discriminate | reflexivity].
Defined.

Lemma validateUUID_nonempty (u : jsstring) :
  validateUUID u = true -> truthy (Some u) = true.
Proof. destruct u; [discriminate | reflexivity]. Qed.

(** X20: the HTTP fallback of [handleVLESS] does not consult the user
    list: the identifier text of any sixteen bytes gets the configuration
    reply, also when [firstMessageHandler] would find no user for it. *)
Theorem fallback_ignores_user_list :
  forall (request : Request) (buffer : bytes),
    List.length buffer = 16%nat ->
    buffer <> user_bytes ->
    header_Upgrade request <> Some (lit "websocket") ->
    param_uuid request = Some (lit (uuid_of buffer)) ->
      find_user VLESS_USERS (uuid_of buffer) = None
      /\ handleVLESS request
         = (json_response
              (JSON_stringify
                 (fallback_config (lit (uuid_of buffer)) (header_host request))),
            None).
Proof.
  intros r buffer Hl Hne Hu Hp.
  assert (Hs : slice buffer 0 16 = buffer).
  { rewrite slice_0, <- Hl. apply firstn_all. }
  assert (Hv : validateUUID (lit (uuid_of buffer)) = true).
  { unfold uuid_of. rewrite Hs, validateUUID_identifier, Hl. reflexivity. }
  split.
  - apply find_user_unknown. rewrite Hs. exact Hne.
  - unfold handleVLESS.
    destruct (negb (truthy (header_Upgrade r))
              || negb (strict_eq (template (header_Upgrade r))
                         (lit "websocket"))) eqn:Eu.
    + rewrite Hp, or_else_first by (apply validateUUID_nonempty; exact Hv).
      cbn [template]. pose proof (validateUUID_nonempty _ Hv) as Ht.
      unfold text, jsstring in *. rewrite Ht, Hv. reflexivity.
    + apply upgrade_condition in Eu. contradiction.
Qed.

Lemma fallback_ignores_user_list_witness :
  find_user VLESS_USERS (uuid_of (flip_at user_bytes 15 0)) = None
  /\ handleVLESS sample_unknown_user
     = (json_response
          (JSON_stringify
             (fallback_config (lit (uuid_of (flip_at user_bytes 15 0)))
                (header_host sample_unknown_user))),
        None).
Proof.
  apply (fallback_ignores_user_list sample_unknown_user
           (flip_at user_bytes 15 0)).
  - reflexivity.
  - intros H. vm_compute in H. discriminate H.
  - intros H. discriminate H.
  - reflexivity.
Defined.
